(** * Flathub to nixpkgs AppStream mapper: a shallow embedding

    The development follows [flathub_mapper.py].  Python values are embedded
    as follows.

    - [str] is [string]; a character is a code point below 256.
    - The [float] literals 1.0 and 0.8, which the program only stores and
      compares, are the rationals they denote ([Qc], rationals in lowest
      terms, so that equality is plain [=]).  The coverage percentage is
      modelled twice: [coverage_percent] is the exact rational, used for the
      bounds that rounding preserves, and [coverage_percent_binary64] is the
      binary64 number the program computes.
    - An insertion-ordered [dict] that the program iterates over (the
      component mapping) is an association list with distinct keys, in
      insertion order.  A [dict] that is only looked up, or whose iteration
      order cannot be observed in any output (the package mapping, the
      curated table, XML attributes) is a [gmap].
    - A raised exception is the [Raise] constructor of the result type [res].
    - An [xml.etree.ElementTree.Element] is the tree [Element].  Parsing the
      feed is outside the embedding: the parser starts from the tree of the
      feed, a tree as an XML parser builds it (tags and attribute names are
      XML names, and text, tails and attribute values hold the characters XML
      allows).  A serialised fragment ([raw_xml], the result of the
      transformer) is represented by the tree that was serialised;
      [ET.fromstring] and [ET.fromstring_written] below are parsing that text
      back, which reads line ends as XML prescribes. *)

From Stdlib Require Import Ascii String QArith Qcanon Uint63 PrimFloat.
From stdpp Require Import base option list strings gmap fin_maps.

Open Scope string_scope.
Open Scope list_scope.
Open Scope stdpp_scope.

(** ** Python built-ins *)

Module Py.

(** [str.isspace] of a one-character string, on code points below 256. *)
Definition isspace (c : ascii) : bool :=
  let n := nat_of_ascii c in
  (((9 <=? n) && (n <=? 13)) || ((28 <=? n) && (n <=? 32))
   || (n =? 133) || (n =? 160))%nat.

(** [str.lower] of a one-character string, on code points below 256:
    the ASCII capitals and the Latin-1 capitals other than the
    multiplication sign. *)
Definition lower_char (c : ascii) : ascii :=
  let n := nat_of_ascii c in
  if (((65 <=? n) && (n <=? 90))
      || ((192 <=? n) && (n <=? 222) && negb (n =? 215)))%nat
  then ascii_of_nat (n + 32) else c.

Fixpoint lower (s : string) : string :=
  match s with
  | EmptyString => EmptyString
  | String c r => String (lower_char c) (lower r)
  end.

Fixpoint lstrip (s : string) : string :=
  match s with
  | EmptyString => EmptyString
  | String c r => if isspace c then lstrip r else s
  end.

Fixpoint rstrip (s : string) : string :=
  match s with
  | EmptyString => EmptyString
  | String c r =>
      match rstrip r with
      | EmptyString => if isspace c then EmptyString else String c EmptyString
      | r' => String c r'
      end
  end.

(** [s.strip()] *)
Definition strip (s : string) : string := rstrip (lstrip s).

(** [s.endswith(suffix)] *)
Definition endswith (s suffix : string) : bool :=
  let n := String.length s in
  let m := String.length suffix in
  (m <=? n)%nat && String.eqb (substring (n - m) m s) suffix.

(** [s.removesuffix(suffix)] *)
Definition removesuffix (s suffix : string) : string :=
  if negb (String.eqb suffix "") && endswith s suffix
  then substring 0 (String.length s - String.length suffix) s
  else s.

(** [s.split(sep)] for a one-character separator. *)
Fixpoint split (sep : ascii) (s : string) : list string :=
  match s with
  | EmptyString => [EmptyString]
  | String c r =>
      if decide (c = sep) then EmptyString :: split sep r
      else match split sep r with
           | [] => [String c EmptyString]
           | h :: t => String c h :: t
           end
  end.

(** [sep.join(l)] *)
Definition join (sep : string) (l : list string) : string :=
  String.concat sep l.

(** Truth value of a [str]. *)
Definition truthy (s : string) : bool := negb (String.eqb s "").

End Py.

(** ** Exceptions *)

Inductive exn : Type :=
  | KeyError (key : string)
  | IndexError
  | ZeroDivisionError
  | ParseError
  | AttributeError
  | OSError.

Inductive res (A : Type) : Type :=
  | Ok (a : A)
  | Raise (e : exn).
Arguments Ok {A} a.
Arguments Raise {A} e.

#[global] Instance res_ret : MRet res := @Ok.
#[global] Instance res_bind : MBind res := fun A B f m =>
  match m with
  | Ok a => f a
  | Raise e => Raise e
  end.

(** [d[k]] on a looked-up dict. *)
Definition getitem {V} (d : gmap string V) (k : string) : res V :=
  match d !! k with
  | Some v => Ok v
  | None => Raise (KeyError k)
  end.

(** [l[-1]] *)
Definition last_item {A} (l : list A) : res A :=
  match last l with
  | Some x => Ok x
  | None => Raise IndexError
  end.

(** [k in d] *)
Definition contains {V} (d : gmap string V) (k : string) : bool :=
  bool_decide (is_Some (d !! k)).

(** The number an [int] (here always a length) denotes. *)
Definition of_int (n : nat) : Qc := Q2Qc (inject_Z (Z.of_nat n)).

(** [a / b] on [int] operands. *)
Definition truediv (a b : nat) : res Qc :=
  if decide (b = 0) then Raise ZeroDivisionError
  else Ok (of_int a / of_int b)%Qc.

(** ** Insertion-ordered dicts *)

Abbreviation odict V := (list (string * V)).

Fixpoint odict_get {V} (d : odict V) (k : string) : option V :=
  match d with
  | [] => None
  | (k', v) :: r => if decide (k' = k) then Some v else odict_get r k
  end.

(** [d[k] = v]: an existing key keeps its position. *)
Fixpoint odict_set {V} (d : odict V) (k : string) (v : V) : odict V :=
  match d with
  | [] => [(k, v)]
  | (k', v') :: r =>
      if decide (k' = k) then (k', v) :: r else (k', v') :: odict_set r k v
  end.

Definition odict_keys {V} (d : odict V) : list string := d.*1.

(** The representation invariant of a dict: keys are distinct. *)
Definition odict_wf {V} (d : odict V) : Prop := NoDup (odict_keys d).

(** ** Data model *)

Module NixPackage.
Record t : Type := mk {
  attr : string;
  version : string;
  desktop_ids : list string;
  store_path : option string
}.
End NixPackage.

(** An ElementTree element. *)
#[warnings="-register-all"]
Inductive Element : Type :=
  | Elem (tag : string) (attrib : gmap string string)
         (text : option string) (tail : option string)
         (children : list Element).

Module FlathubComponent.
Record t : Type := mk {
  id : string;
  name : string;
  summary : string;
  description : string;
  categories : list string;
  keywords : list string;
  screenshots : list string;
  icon_url : option string;
  homepage : option string;
  license : option string;
  developer_name : option string;
  raw_xml : Element
}.
End FlathubComponent.

Module Mapping.
Record t : Type := mk {
  flathub_id : string;
  nixpkgs_attr : string;
  nixpkgs_version : string;
  confidence : Qc
}.
End Mapping.

(** ** The curated table *)

(** A dict display [{k1: v1, k2: v2, ...}]: entries are stored left to
    right, a repeated key keeps the last value. *)
Definition dict_literal {V} (l : list (string * V)) : gmap string V :=
  foldl (fun d kv => <[kv.1 := kv.2]> d) ∅ l.

Definition build_desktop_id_mapping : gmap string string :=
  dict_literal [
    (* Browsers *)
    ("org.mozilla.firefox", "firefox");
    ("org.mozilla.Thunderbird", "thunderbird");
    ("com.google.Chrome", "google-chrome");
    ("org.chromium.Chromium", "chromium");
    ("org.gnome.Epiphany", "epiphany");
    ("io.gitlab.librewolf-community", "librewolf");
    ("com.brave.Browser", "brave");
    ("com.vivaldi.Vivaldi", "vivaldi");
    (* Communication *)
    ("org.signal.Signal", "signal-desktop");
    ("com.discordapp.Discord", "discord");
    ("org.telegram.desktop", "telegram-desktop");
    ("im.riot.Riot", "element-desktop");
    ("io.element.Element", "element-desktop");
    ("com.slack.Slack", "slack");
    ("us.zoom.Zoom", "zoom-us");
    ("com.microsoft.Teams", "teams");
    (* Media *)
    ("org.videolan.VLC", "vlc");
    ("io.mpv.Mpv", "mpv");
    ("org.gnome.Totem", "totem");
    ("org.kde.elisa", "elisa");
    ("com.spotify.Client", "spotify");
    ("org.audacityteam.Audacity", "audacity");
    ("org.kde.kdenlive", "kdenlive");
    ("org.blender.Blender", "blender");
    ("org.gimp.GIMP", "gimp");
    ("org.inkscape.Inkscape", "inkscape");
    ("org.kde.krita", "krita");
    ("org.darktable.darktable", "darktable");
    ("org.shotcut.Shotcut", "shotcut");
    ("com.obsproject.Studio", "obs-studio");
    ("org.gnome.Cheese", "cheese");
    (* Office *)
    ("org.libreoffice.LibreOffice", "libreoffice");
    ("org.onlyoffice.desktopeditors", "onlyoffice-bin");
    ("md.obsidian.Obsidian", "obsidian");
    ("com.logseq.Logseq", "logseq");
    ("org.gnome.Evince", "evince");
    ("org.kde.okular", "okular");
    ("org.gnome.Calculator", "gnome-calculator");
    ("org.gnome.Calendar", "gnome-calendar");
    ("org.gnome.Contacts", "gnome-contacts");
    ("org.gnome.gedit", "gedit");
    ("org.gnome.TextEditor", "gnome-text-editor");
    (* Development *)
    ("com.visualstudio.code", "vscode");
    ("com.vscodium.codium", "vscodium");
    ("org.gnome.Builder", "gnome-builder");
    ("io.neovim.nvim", "neovim");
    ("org.gnu.emacs", "emacs");
    ("com.jetbrains.IntelliJ-IDEA-Community", "jetbrains.idea-community");
    ("com.jetbrains.PyCharm-Community", "jetbrains.pycharm-community");
    ("org.kde.kate", "kate");
    (* Games *)
    ("com.valvesoftware.Steam", "steam");
    ("net.lutris.Lutris", "lutris");
    ("org.prismlauncher.PrismLauncher", "prismlauncher");
    ("com.heroicgameslauncher.hgl", "heroic");
    (* Utilities *)
    ("org.gnome.FileRoller", "file-roller");
    ("org.gnome.Nautilus", "nautilus");
    ("org.kde.dolphin", "dolphin");
    ("org.gnome.Terminal", "gnome-terminal");
    ("org.kde.konsole", "konsole");
    ("com.alacritty.Alacritty", "alacritty");
    ("org.wezfurlong.wezterm", "wezterm");
    ("org.gnome.Settings", "gnome-control-center");
    ("org.kde.systemsettings", "plasma5Packages.systemsettings");
    ("org.gnome.tweaks", "gnome-tweaks");
    ("org.gnome.Extensions", "gnome-extensions-app");
    ("com.github.tchx84.Flatseal", "flatseal");
    ("org.keepassxc.KeePassXC", "keepassxc");
    ("com.bitwarden.desktop", "bitwarden-desktop");
    ("org.gnome.Boxes", "gnome-boxes");
    ("org.qbittorrent.qBittorrent", "qbittorrent");
    ("org.transmissionbt.Transmission", "transmission-gtk");
    ("org.remmina.Remmina", "remmina");
    (* System *)
    ("org.gnome.DiskUtility", "gnome-disk-utility");
    ("org.gnome.baobab", "baobab");
    ("org.gnome.SystemMonitor", "gnome-system-monitor");
    ("org.kde.ksysguard", "ksysguard");
    ("org.freedesktop.GnomeAbrt", "gnome-abrt");
    (* More apps... *)
    ("org.gnome.Fractal", "fractal");
    ("org.gnome.Lollypop", "lollypop");
    ("org.gnome.Rhythmbox3", "rhythmbox");
    ("org.gnome.Maps", "gnome-maps");
    ("org.gnome.Weather", "gnome-weather");
    ("org.gnome.clocks", "gnome-clocks");
    ("org.gnome.Logs", "gnome-logs");
    ("org.gnome.Photos", "gnome-photos");
    ("org.gnome.Shotwell", "shotwell");
    ("org.flameshot.Flameshot", "flameshot");
    ("com.calibre_ebook.calibre", "calibre");
    ("org.kde.gwenview", "gwenview");
    ("org.kde.ark", "ark");
    ("org.kde.spectacle", "spectacle");
    ("org.kde.kcalc", "kcalc");
    ("org.freedesktop.Piper", "piper");
    ("org.nickvision.tubeconverter", "parabolic");
    ("io.bassi.Amberol", "amberol");
    ("org.gnome.Podcasts", "gnome-podcasts");
    ("de.haeckerfelix.Shortwave", "shortwave");
    ("com.github.wwmm.easyeffects", "easyeffects");
    ("org.pipewire.Helvum", "helvum");
    ("org.pulseaudio.pavucontrol", "pavucontrol");
    ("com.uploadedlobster.peek", "peek");
    ("org.kde.kcolorchooser", "kcolorchooser");
    ("nl.hjdskes.gcolor3", "gcolor3");
    ("org.gnome.font-viewer", "gnome-font-viewer");
    ("org.gnome.Characters", "gnome-characters");
    ("com.belmoussaoui.Decoder", "decoder");
    ("com.belmoussaoui.Authenticator", "authenticator");
    ("com.rafaelmardojai.Blanket", "blanket");
    ("io.github.celluloid_player.Celluloid", "celluloid");
    ("com.github.rafostar.Clapper", "clapper");
    ("org.pitivi.Pitivi", "pitivi");
    ("fr.handbrake.ghb", "handbrake");
    ("org.openshot.OpenShot", "openshot-qt");
    ("org.musescore.MuseScore", "musescore");
    ("org.ardour.Ardour", "ardour");
    ("org.kde.kwave", "kwave");
    ("org.freecadweb.FreeCAD", "freecad");
    ("org.openscad.OpenSCAD", "openscad");
    ("org.kicad.kicad", "kicad");
    ("org.gnome.GHex", "ghex");
    ("org.wireshark.Wireshark", "wireshark")
  ].

(** ** The matcher *)

(** A [for] loop whose body updates the loop state or raises. *)
Fixpoint for_each {A S} (body : S -> A -> res S) (s : S) (l : list A) : res S :=
  match l with
  | [] => Ok s
  | x :: r => s' ← body s x; for_each body s' r
  end.

(** The literal [0.8]. *)
Definition float_0_8 : Qc := Q2Qc (8 # 10).

(** One iteration of the loop of [create_mapping]: the new value of
    [mappings]. *)
Definition create_mapping_body
    (nixpkgs_packages : gmap string NixPackage.t)
    (desktop_id_mapping : gmap string string)
    (mappings : list Mapping.t) (flathub_id : string) : res (list Mapping.t) :=
  (* Check if we have a direct mapping *)
  direct ←
    (if contains desktop_id_mapping flathub_id then
       nixpkgs_attr ← getitem desktop_id_mapping flathub_id;
       if contains nixpkgs_packages nixpkgs_attr then
         pkg ← getitem nixpkgs_packages nixpkgs_attr;
         mret (Some (Mapping.mk flathub_id nixpkgs_attr
                                (NixPackage.version pkg) 1%Qc))
       else mret None
     else mret None);
  match direct with
  | Some m => mret (mappings ++ [m])
  | None =>
      (* Try fuzzy matching by name *)
      let id_parts := Py.split "." flathub_id in
      app_name ←
        (if bool_decide (id_parts ≠ [])
         then last_part ← last_item id_parts; mret (Py.lower last_part)
         else mret "");
      if Py.truthy app_name && contains nixpkgs_packages app_name then
        pkg ← getitem nixpkgs_packages app_name;
        mret (mappings ++ [Mapping.mk flathub_id app_name
                                      (NixPackage.version pkg) float_0_8])
      else mret mappings
  end.

Definition create_mapping
    (flathub_components : odict FlathubComponent.t)
    (nixpkgs_packages : gmap string NixPackage.t)
    (desktop_id_mapping : gmap string string) : res (list Mapping.t) :=
  for_each
    (fun mappings '(flathub_id, _component) =>
       create_mapping_body nixpkgs_packages desktop_id_mapping
                           mappings flathub_id)
    [] flathub_components.

(** The correspondences a list holds for one source identity. *)
Definition mappings_for (flathub_id : string) (mappings : list Mapping.t)
  : list Mapping.t :=
  filter (fun m => Mapping.flathub_id m = flathub_id) mappings.

(** ** ElementTree *)

Module ET.

Definition tag (e : Element) : string := let 'Elem t _ _ _ _ := e in t.
Definition attrib (e : Element) : gmap string string :=
  let 'Elem _ a _ _ _ := e in a.
Definition text (e : Element) : option string := let 'Elem _ _ x _ _ := e in x.
Definition tail (e : Element) : option string := let 'Elem _ _ _ x _ := e in x.
Definition children (e : Element) : list Element :=
  let 'Elem _ _ _ _ cs := e in cs.

(** [e.get(key)] *)
Definition get (e : Element) (key : string) : option string :=
  attrib e !! key.

(** [e.set(key, value)] *)
Definition set (e : Element) (key value : string) : Element :=
  Elem (tag e) (<[key := value]> (attrib e)) (text e) (tail e) (children e).

(** [e.text = value] *)
Definition set_text (e : Element) (value : option string) : Element :=
  Elem (tag e) (attrib e) value (tail e) (children e).

(** [e.clear()]: no subelements, no attributes, no text, no tail. *)
Definition clear (e : Element) : Element := Elem (tag e) ∅ None None [].

(** [SubElement(e, t)]: the parent with a fresh empty child appended. *)
Definition SubElement (e : Element) (t : string) : Element :=
  Elem (tag e) (attrib e) (text e) (tail e)
       (children e ++ [Elem t ∅ None None []]).

(** [e.findall(t)]: the direct children with tag [t], in document order. *)
Definition findall (e : Element) (t : string) : list Element :=
  filter (fun c => tag c = t) (children e).

(** [e.find(t)], as the position of the child found: the element is
    shared with its parent, so an update of it is an update at that
    position. *)
Definition find_index (e : Element) (t : string) : option nat :=
  fst <$> list_find (fun c => tag c = t) (children e).

(** [e.find(t)] *)
Definition find (e : Element) (t : string) : option Element :=
  snd <$> list_find (fun c => tag c = t) (children e).

(** An in-place update of the child at position [i]. *)
Definition update_child (e : Element) (i : nat) (f : Element -> Element)
  : Element :=
  Elem (tag e) (attrib e) (text e) (tail e) (alter f i (children e)).

(** [e.findtext(t, default)]: the text of the first child with tag [t], the
    empty string when that child has no text. *)
Definition findtext (e : Element) (t : string) (default : string) : string :=
  match find e t with
  | Some c => match text c with Some s => s | None => "" end
  | None => default
  end.

(** All proper descendants, in document order. *)
Fixpoint descendants (e : Element) : list Element :=
  match e with
  | Elem _ _ _ _ cs =>
      (fix go (l : list Element) : list Element :=
         match l with
         | [] => []
         | c :: r => c :: descendants c ++ go r
         end) cs
  end.

(** [e.findall(".//t")] *)
Definition findall_desc (e : Element) (t : string) : list Element :=
  filter (fun c => tag c = t) (descendants e).

(** [e.findall(".//t/u")] *)
Definition findall_desc_child (e : Element) (t u : string) : list Element :=
  findall_desc e t ≫= (fun c => findall c u).

(** The text a truthy [text] or [tail] contributes. *)
Definition text_item (x : option string) : list string :=
  match x with
  | Some s => if Py.truthy s then [s] else []
  | None => []
  end.

(** [list(e.itertext())] *)
Fixpoint itertext (e : Element) : list string :=
  match e with
  | Elem _ _ x _ cs =>
      text_item x ++
      (fix go (l : list Element) : list string :=
         match l with
         | [] => []
         | c :: r => itertext c ++ text_item (tail c) ++ go r
         end) cs
  end.

(** White space in the sense of XML. *)
Definition xml_space (c : ascii) : bool :=
  let n := nat_of_ascii c in
  ((n =? 9) || (n =? 10) || (n =? 13) || (n =? 32))%nat.

(** No text, or white space only. *)
Definition blank (x : option string) : bool :=
  match x with
  | Some s => forallb xml_space (list_ascii_of_string s)
  | None => true
  end.

(** Line ends as an XML parser reports them: CR LF and a lone CR are
    read as LF. *)
Fixpoint newlines (s : string) : string :=
  match s with
  | EmptyString => EmptyString
  | String c r =>
      if decide (c = "013"%char) then
        match r with
        | String c' r' =>
            if decide (c' = "010"%char) then String "010" (newlines r')
            else String "010" (newlines r)
        | EmptyString => String "010" EmptyString
        end
      else String c (newlines r)
  end.

(** The text or tail a parser reads back: the serialiser writes nothing
    for an empty one, and character data goes through [newlines]. *)
Definition parsed_text (x : option string) : option string :=
  match x with
  | Some s => if Py.truthy s then Some (newlines s) else None
  | None => None
  end.

(** The tree a parser reads back from the serialised form of [e].
    Attribute values come back as they are: the serialiser writes their
    CR, LF and TAB as character references. *)
Fixpoint parsed (e : Element) : Element :=
  match e with
  | Elem t a x tl cs =>
      Elem t a (parsed_text x) (parsed_text tl)
        ((fix go (l : list Element) : list Element :=
            match l with
            | [] => []
            | c :: r => parsed c :: go r
            end) cs)
  end.

(** [ET.fromstring(ET.tostring(e, encoding="unicode"))] for a stored
    fragment [e], a tree built by a parser.  The text holds the element and
    its tail; text other than white space after the document element is a
    parse error, and the element parsed has no tail. *)
Definition fromstring (e : Element) : res Element :=
  if blank (tail e)
  then Ok (Elem (tag e) (attrib e) (text (parsed e)) None
                (children (parsed e)))
  else Raise ParseError.

(** The characters XML allows, among the code points below 256. *)
Definition xml_char (c : ascii) : bool :=
  let n := nat_of_ascii c in
  ((n =? 9) || (n =? 10) || (n =? 13) || (32 <=? n))%nat.

Definition xml_string (s : string) : bool :=
  forallb xml_char (list_ascii_of_string s).

(** Whether every text, tail and attribute value of the tree holds only
    characters XML allows. *)
Fixpoint xml_chars (e : Element) : bool :=
  match e with
  | Elem _ a x tl cs =>
      forallb xml_string (option_list x ++ option_list tl ++ (map_to_list a).*2)
      && (fix go (l : list Element) : bool :=
            match l with
            | [] => true
            | c :: r => xml_chars c && go r
            end) cs
  end.

(** [ET.fromstring(ET.tostring(e, encoding="unicode"))] for a tree into
    which the program has written strings of its own (an attr, a version,
    an identity): a character XML forbids is a parse error. *)
Definition fromstring_written (e : Element) : res Element :=
  if xml_chars e then fromstring e else Raise ParseError.

(** The white space [ET.indent] puts before a child at the given level. *)
Definition indentation (level : nat) : string :=
  String "010" (String.concat "" (replicate level "  ")).

(** [not x or not x.strip()] *)
Definition blank_text (x : option string) : bool :=
  match x with
  | Some s => negb (Py.truthy (Py.strip s))
  | None => true
  end.

Definition set_tail (e : Element) (value : option string) : Element :=
  Elem (tag e) (attrib e) (text e) value (children e).

(** [_indent_children(elem, level)] of [ET.indent], for an element that
    has children. *)
Fixpoint indent_children (elem : Element) (level : nat) : Element :=
  match elem with
  | Elem t a x tl cs =>
      let child_indentation := indentation (S level) in
      Elem t a (if blank_text x then Some child_indentation else x) tl
        ((fix go (l : list Element) : list Element :=
            match l with
            | [] => []
            | child :: rest =>
                let child' :=
                  match children child with
                  | [] => child
                  | _ :: _ => indent_children child (S level)
                  end in
                let tail1 :=
                  if blank_text (tail child) then Some child_indentation
                  else tail child in
                let tail2 :=
                  match rest with
                  | [] =>
                      (* Dedent after the last child *)
                      if blank_text tail1 then Some (indentation level)
                      else tail1
                  | _ :: _ => tail1
                  end in
                set_tail child' tail2 :: go rest
            end) cs)
  end.

(** [ET.indent(tree, space="  ")] *)
Definition indent (tree : Element) : Element :=
  match children tree with
  | [] => tree
  | _ :: _ => indent_children tree 0
  end.

End ET.

(** ** The source parser *)

Definition FLATHUB_ICONS_BASE_URL : string :=
  "https://dl.flathub.org/repo/appstream/x86_64/icons".

(** The texts of the elements that have a truthy text. *)
Definition truthy_texts (l : list Element) : list string :=
  l ≫= (fun e => ET.text_item (ET.text e)).

(** The icon loop of [parse_flathub_appstream]: the first icon that is
    remote or cached and has a truthy text decides, and ends the loop. *)
Fixpoint icon_loop (icons : list Element) : option string :=
  match icons with
  | [] => None
  | icon :: rest =>
      match ET.text icon with
      | Some t =>
          if bool_decide (ET.get icon "type" = Some "remote") && Py.truthy t
          then Some t
          else if bool_decide (ET.get icon "type" = Some "cached")
                  && Py.truthy t
          then Some (FLATHUB_ICONS_BASE_URL +:+ "/128x128/" +:+ t)
          else icon_loop rest
      | None => icon_loop rest
      end
  end.

(** The homepage loop: the text of the first [url] of type homepage. *)
Fixpoint homepage_loop (urls : list Element) : option string :=
  match urls with
  | [] => None
  | url :: rest =>
      if bool_decide (ET.get url "type" = Some "homepage") then ET.text url
      else homepage_loop rest
  end.

(** The body of the loop of [parse_flathub_appstream]: [None] is
    [continue], otherwise the component stored under its [id]. *)
Definition parse_component (component : Element)
  : option FlathubComponent.t :=
  let comp_type := default "" (ET.get component "type") in
  if negb (bool_decide (comp_type = "desktop")
           || bool_decide (comp_type = "desktop-application"))
  then None
  else
    let comp_id := Py.strip (ET.findtext component "id" "") in
    if negb (Py.truthy comp_id) then None
    else
      (* Remove .desktop suffix if present for the ID *)
      let base_id := Py.removesuffix comp_id ".desktop" in
      let name := ET.findtext component "name" "" in
      let summary := ET.findtext component "summary" "" in
      let description :=
        match ET.find component "description" with
        | Some desc_elem => Py.strip (Py.join "" (ET.itertext desc_elem))
        | None => ""
        end in
      let categories := truthy_texts (ET.findall_desc component "category") in
      let keywords := truthy_texts (ET.findall_desc component "keyword") in
      let screenshots :=
        truthy_texts
          (filter (fun s => ET.get s "type" = Some "source")
                  (ET.findall_desc_child component "screenshot" "image")) in
      let icon_url := icon_loop (ET.findall component "icon") in
      let homepage := homepage_loop (ET.findall component "url") in
      let license_id := ET.findtext component "project_license" "" in
      let developer_name := ET.findtext component "developer_name" "" in
      Some (FlathubComponent.mk base_id name summary description categories
              keywords screenshots icon_url homepage (Some license_id)
              (Some developer_name) component).

Definition parse_flathub_appstream (root : Element)
  : odict FlathubComponent.t :=
  foldl
    (fun components component =>
       match parse_component component with
       | Some c => odict_set components (FlathubComponent.id c) c
       | None => components
       end)
    [] (ET.findall_desc root "component").

(** ** The transformer *)

(** [elem.find(t)], creating the child with [SubElement] when there is
    none: the element (with the new child, if any) and the position of the
    child. *)
Definition find_or_add (elem : Element) (t : string) : Element * nat :=
  match ET.find_index elem t with
  | Some i => (elem, i)
  | None => (ET.SubElement elem t, length (ET.children elem))
  end.

(** The extension of the icon file of a component. *)
Definition icon_ext (component : FlathubComponent.t) : string :=
  match FlathubComponent.icon_url component with
  | Some u => if Py.truthy u && Py.endswith u ".svg" then ".svg" else ".png"
  | None => ".png"
  end.

(** The body of the icon loop of [transform_component_xml]. *)
Definition rewrite_icon (component : FlathubComponent.t) (icon : Element)
  : Element :=
  let icon_type := default "" (ET.get icon "type") in
  if bool_decide (icon_type = "remote") || bool_decide (icon_type = "cached")
  then
    let icon := ET.set icon "type" "cached" in
    let icon := ET.set icon "width" "128" in
    let icon := ET.set icon "height" "128" in
    ET.set_text icon
      (Some (FlathubComponent.id component +:+ icon_ext component))
  else icon.

(** [transform_component_xml]; the result is the tree that is serialised
    ([output_dir] is not used by the function). *)
Definition transform_component_xml
    (component : FlathubComponent.t) (mapping : Mapping.t) : res Element :=
  (* Parse the raw XML *)
  elem ← ET.fromstring (FlathubComponent.raw_xml component);
  (* Update or add pkgname *)
  let '(elem, pkgname) := find_or_add elem "pkgname" in
  let elem :=
    ET.update_child elem pkgname
      (fun e => ET.set_text e (Some (Mapping.nixpkgs_attr mapping))) in
  (* Add/update releases with nixpkgs version *)
  let '(elem, releases) := find_or_add elem "releases" in
  let elem :=
    ET.update_child elem releases
      (fun e =>
         ET.update_child (ET.SubElement (ET.clear e) "release") 0
           (fun r => ET.set r "version" (Mapping.nixpkgs_version mapping))) in
  (* Update icon references to local paths *)
  mret
    (Elem (ET.tag elem) (ET.attrib elem) (ET.text elem) (ET.tail elem)
       ((fun c => if decide (ET.tag c = "icon") then rewrite_icon component c
                  else c) <$> ET.children elem)).

(** ** The catalog emitter *)

(** [root.append(e)] *)
Definition append (root e : Element) : Element :=
  Elem (ET.tag root) (ET.attrib root) (ET.text root) (ET.tail root)
       (ET.children root ++ [e]).

(** The body of the loop of [generate_appstream_catalog]: a mapping
    without a component is passed over, and so is one whose transformation
    raises. *)
Definition catalog_body
    (flathub_components : odict FlathubComponent.t)
    (root : Element) (mapping : Mapping.t) : Element :=
  match odict_get flathub_components (Mapping.flathub_id mapping) with
  | None => root
  | Some component =>
      match (transformed_xml ← transform_component_xml component mapping;
             ET.fromstring_written transformed_xml) with
      | Ok component_elem => append root component_elem
      | Raise _ => root
      end
  end.

(** The catalog tree that [generate_appstream_catalog] writes; downloading
    icons and the files themselves are outside the embedding. *)
Definition generate_appstream_catalog
    (mappings : list Mapping.t)
    (flathub_components : odict FlathubComponent.t) : Element :=
  ET.indent
    (foldl (catalog_body flathub_components)
       (ET.set (ET.set (Elem "components" ∅ None None []) "version" "0.16")
               "origin" "nixpkgs-flathub")
       mappings).

Module MappingEntry.
Record t : Type := mk {
  flathub_id : string;
  nixpkgs_attr : string;
  nixpkgs_version : string;
  confidence : Qc;
  flathub_name : string
}.
End MappingEntry.

(** A Python number: an [int] or a [float], which is a binary64. *)
Inductive number : Type :=
  | Int (z : Z)
  | Float (f : float).

(** The report.  Of the entry [coverage_percent] the record keeps the
    number the program stores, [coverage_percent_binary64], and the exact
    value that this number approximates, [coverage_percent]. *)
Module Report.
Record t : Type := mk {
  total_flathub_components : nat;
  total_mappings : nat;
  coverage_percent : Qc;
  coverage_percent_binary64 : number;
  mappings : list MappingEntry.t;
  unmapped_popular : list (string * string)
}.
End Report.

(** The exact value of the [coverage_percent] entry of the report, of
    which the number stored is the binary64 approximation. *)
Definition coverage_percent
    (mappings : list Mapping.t)
    (flathub_components : odict FlathubComponent.t) : res Qc :=
  if bool_decide (flathub_components ≠ []) then
    q ← truediv (length mappings) (length flathub_components);
    mret (q * of_int 100)%Qc
  else mret 0%Qc.

(** [float(n)] for a natural number [n]; the conversion is exact below
    2^53, which bounds the length of any list that fits in memory. *)
Definition float_of_nat (n : nat) : float :=
  PrimFloat.of_uint63 (Uint63.of_Z (Z.of_nat n)).

(** [a / b] on [int] operands below 2^53: the binary64 quotient. *)
Definition truediv_binary64 (a b : nat) : res float :=
  if decide (b = 0) then Raise ZeroDivisionError
  else Ok (float_of_nat a / float_of_nat b)%float.

(** The number stored under [coverage_percent], as the program computes
    it: a binary64 quotient times 100, or the [int] 0. *)
Definition coverage_percent_binary64
    (mappings : list Mapping.t)
    (flathub_components : odict FlathubComponent.t) : res number :=
  if bool_decide (flathub_components ≠ []) then
    q ← truediv_binary64 (length mappings) (length flathub_components);
    mret (Float (q * float_of_nat 100)%float)
  else mret (Int 0).

(** The [flathub_name] of a report entry: the name of the component, or
    that of the placeholder component, which is empty. *)
Definition flathub_name
    (flathub_components : odict FlathubComponent.t) (flathub_id : string)
  : string :=
  match odict_get flathub_components flathub_id with
  | Some c => FlathubComponent.name c
  | None => ""
  end.

(** The [unmapped_popular] entry of the report, as pairs (id, name). *)
Definition unmapped_popular
    (mappings : list Mapping.t)
    (flathub_components : odict FlathubComponent.t) : list (string * string) :=
  take 20
    ((fun '(_, comp) => (FlathubComponent.id comp, FlathubComponent.name comp))
     <$> filter
           (fun '(comp_id, _) =>
              ¬ Exists (fun m => Mapping.flathub_id m = comp_id) mappings)
           (take 100 flathub_components)).

Definition generate_mapping_report
    (mappings : list Mapping.t)
    (flathub_components : odict FlathubComponent.t) : res Report.t :=
  coverage ← coverage_percent mappings flathub_components;
  stored ← coverage_percent_binary64 mappings flathub_components;
  mret
    (Report.mk (length flathub_components) (length mappings) coverage stored
       ((fun m =>
           MappingEntry.mk (Mapping.flathub_id m) (Mapping.nixpkgs_attr m)
             (Mapping.nixpkgs_version m) (Mapping.confidence m)
             (flathub_name flathub_components (Mapping.flathub_id m)))
        <$> mappings)
       (unmapped_popular mappings flathub_components)).

(** ** The pipeline *)

(** The body of the loop of [main] that adds every mapped attr to the
    packages if not present. *)
Definition add_mapped_attr
    (nixpkgs_packages : gmap string NixPackage.t) (item : string * string)
  : gmap string NixPackage.t :=
  let '(_desktop_id, attr) := item in
  if contains nixpkgs_packages attr then nixpkgs_packages
  else <[attr := NixPackage.mk attr "unknown" [] None]> nixpkgs_packages.

Definition add_mapped_attrs
    (desktop_id_mapping : gmap string string)
    (nixpkgs_packages : gmap string NixPackage.t)
  : gmap string NixPackage.t :=
  foldl add_mapped_attr nixpkgs_packages (map_to_list desktop_id_mapping).

Module Output.
Record t : Type := mk {
  mappings : list Mapping.t;
  report : Report.t;
  catalog : option Element
}.
End Output.

(** [main], from the parsed feed and the result of the package scan to
    what is written: the report, and the catalog unless [mapping_only]. *)
Definition main (no_nix_search mapping_only : bool)
    (feed : Element) (scan : gmap string NixPackage.t) : res Output.t :=
  let flathub_components := parse_flathub_appstream feed in
  let nixpkgs_packages := if no_nix_search then ∅ else scan in
  let desktop_id_mapping := build_desktop_id_mapping in
  let nixpkgs_packages := add_mapped_attrs desktop_id_mapping nixpkgs_packages in
  mappings ← create_mapping flathub_components nixpkgs_packages
                            desktop_id_mapping;
  report ← generate_mapping_report mappings flathub_components;
  mret (Output.mk mappings report
          (if mapping_only then None
           else Some (generate_appstream_catalog mappings flathub_components))).

(** ** The registry index *)

(** A member value of the JSON object that [nix search --json] prints: an
    object, of which the scan reads the string under "version", or any
    other JSON value. *)
Inductive PkgInfo : Type :=
  | InfoObject (fields : gmap string string)
  | InfoOther.

(** The standard output of the process as [json.loads] reads it: not
    JSON, any JSON value other than an object, or an object, which is the
    [dict] of its members in iteration order. *)
Inductive SearchOutput : Type :=
  | NotJSON
  | JSONOther
  | JSONObject (items : odict PkgInfo).

(** What [subprocess.run] does: the wait expires, the call raises another
    exception (the program cannot be started, say), or the process
    completes with a return code and an output. *)
Inductive SearchRun : Type :=
  | TimeoutExpired
  | RunRaised (e : exn)
  | Completed (returncode : Z) (stdout : SearchOutput).

(** [pkg_info.get("version", "unknown")] *)
Definition get_version (pkg_info : PkgInfo) : res string :=
  match pkg_info with
  | InfoObject fields => Ok (default "unknown" (fields !! "version"))
  | InfoOther => Raise AttributeError
  end.

(** The body of the loop of [scan_nixpkgs_desktop_files]. *)
Definition scan_body (packages : gmap string NixPackage.t)
    (item : string * PkgInfo) : res (gmap string NixPackage.t) :=
  let '(attr_path, pkg_info) := item in
  let parts := Py.split "." attr_path in
  if bool_decide (3 <= length parts) then
    attr ← last_item parts;
    version ← get_version pkg_info;
    mret (<[attr := NixPackage.mk attr version [] None]> packages)
  else mret packages.

(** [scan_nixpkgs_desktop_files]: of the exceptions only the expired wait
    and the output that is not JSON are handled. *)
Definition scan_nixpkgs_desktop_files (run : SearchRun)
  : res (gmap string NixPackage.t) :=
  match run with
  | TimeoutExpired => mret ∅
  | RunRaised e => Raise e
  | Completed returncode stdout =>
      if bool_decide (returncode ≠ 0%Z) then mret ∅
      else match stdout with
           | NotJSON => mret ∅
           | JSONOther =>
               (* search_results.items() *)
               Raise AttributeError
           | JSONObject search_results => for_each scan_body ∅ search_results
           end
  end.

(** ** Paths *)

Module Path.

(** A [pathlib.PurePosixPath]: its root (empty for a relative path) and
    its components. *)
Record t : Type := mk {
  root : string;
  parts : list string
}.

Fixpoint leading (sep : ascii) (s : string) : nat :=
  match s with
  | EmptyString => 0
  | String c r => if decide (c = sep) then S (leading sep r) else 0
  end.

(** The root of an operand: "//" after exactly two leading separators and
    "/" after any other number of them. *)
Definition splitroot (operand : string) : string :=
  match leading "/" operand with
  | 0 => ""
  | 2 => "//"
  | _ => "/"
  end.

(** The components of an operand: empty ones and "." are dropped. *)
Definition components (operand : string) : list string :=
  filter (fun x => x ≠ "" ∧ x ≠ ".") (Py.split "/" operand).

(** [path / operand] for a [str] operand: an operand with a root replaces
    the path. *)
Definition truediv (path : t) (operand : string) : t :=
  if Py.truthy (splitroot operand)
  then mk (splitroot operand) (components operand)
  else mk (root path) (parts path ++ components operand).

(** [path.name] *)
Definition name (path : t) : string := default "" (last (parts path)).

End Path.

(** ** The icon download *)

(** [download_icon].  [mkdir] is the outcome of [icons_dir.mkdir],
    [path_exists] that of [icon_path.exists()], and [retrieved] tells
    whether [urlretrieve] returns rather than raises. *)
Definition download_icon (icon_url : string) (output_dir : Path.t)
    (component_id size : string) (mkdir : res unit) (path_exists : res bool)
    (retrieved : bool) : res (option Path.t) :=
  if negb (Py.truthy icon_url) then mret None
  else
    let icons_dir := Path.truediv (Path.truediv output_dir "icons") size in
    _ ← mkdir;
    (* Determine extension from URL *)
    let ext := if Py.endswith icon_url ".svg" then ".svg" else ".png" in
    let icon_path := Path.truediv icons_dir (component_id +:+ ext) in
    b ← path_exists;
    if (b : bool) then mret (Some icon_path)
    else if retrieved then mret (Some icon_path) else mret None.

(** ** Loop bodies, restated for the proofs

    The two rules of the matcher as functions of one identity
    ([create_mapping_unfold] below shows that the loop computes them), and
    the contribution of one correspondence to the catalog. *)

Definition curated_rule
    (nixpkgs_packages : gmap string NixPackage.t)
    (desktop_id_mapping : gmap string string) (flathub_id : string)
  : option Mapping.t :=
  nixpkgs_attr ← desktop_id_mapping !! flathub_id;
  pkg ← nixpkgs_packages !! nixpkgs_attr;
  Some (Mapping.mk flathub_id nixpkgs_attr (NixPackage.version pkg) 1%Qc).

Definition heuristic_rule
    (nixpkgs_packages : gmap string NixPackage.t) (flathub_id : string)
  : option Mapping.t :=
  last_part ← last (Py.split "." flathub_id);
  let app_name := Py.lower last_part in
  if Py.truthy app_name then
    pkg ← nixpkgs_packages !! app_name;
    Some (Mapping.mk flathub_id app_name (NixPackage.version pkg) float_0_8)
  else None.

Definition match_rule
    (nixpkgs_packages : gmap string NixPackage.t)
    (desktop_id_mapping : gmap string string) (flathub_id : string)
  : option Mapping.t :=
  match curated_rule nixpkgs_packages desktop_id_mapping flathub_id with
  | Some m => Some m
  | None => heuristic_rule nixpkgs_packages flathub_id
  end.


(** What [ET.indent] makes of one child of an element at [level];
    [is_last] tells whether it is the last child. *)
Definition indent_child (level : nat) (is_last : bool) (child : Element)
  : Element :=
  let child' :=
    match ET.children child with
    | [] => child
    | _ :: _ => ET.indent_children child (S level)
    end in
  let tail1 :=
    if ET.blank_text (ET.tail child) then Some (ET.indentation (S level))
    else ET.tail child in
  ET.set_tail child'
    (if is_last
     then if ET.blank_text tail1 then Some (ET.indentation level) else tail1
     else tail1).

Fixpoint indent_list (level : nat) (l : list Element) : list Element :=
  match l with
  | [] => []
  | child :: rest =>
      indent_child level (bool_decide (rest = [])) child
      :: indent_list level rest
  end.

(** What one iteration of the loop of [generate_appstream_catalog]
    appends to the catalog, if anything. *)
Definition catalog_entry
    (flathub_components : odict FlathubComponent.t) (mapping : Mapping.t)
  : option Element :=
  component ← odict_get flathub_components (Mapping.flathub_id mapping);
  match (transformed_xml ← transform_component_xml component mapping;
         ET.fromstring_written transformed_xml) with
  | Ok component_elem => Some component_elem
  | Raise _ => None
  end.

(** ** Sample inputs *)

Module Sample.

Definition component (id name : string) (icon_url : option string)
    (raw_xml : Element) : FlathubComponent.t :=
  FlathubComponent.mk id name "" "" [] [] [] icon_url None (Some "") (Some "")
    raw_xml.

Definition bare (id : string) : FlathubComponent.t :=
  component id id None (Elem "component" ∅ None None []).

Definition package (attr version : string) : NixPackage.t :=
  NixPackage.mk attr version [] None.

(** [n] components with the distinct identities "app.A", "app.B", ... *)
Definition components (n : nat) : odict FlathubComponent.t :=
  (fun i => let k := "app." +:+ String (ascii_of_nat (65 + i)) "" in
            (k, bare k)) <$> seq 0 n.

(** Correspondences for the first [n] of them. *)
Definition mappings (n : nat) : list Mapping.t :=
  (fun kv => Mapping.mk kv.1 "app" "1.0" float_0_8) <$> components n.

End Sample.

(** * Properties *)

(** ** Python built-ins *)

Example split_vlc : Py.split "." "org.videolan.VLC" = ["org"; "videolan"; "VLC"].
Proof. reflexivity. Qed.

Example split_trailing_dot : Py.split "." "org.example." = ["org"; "example"; ""].
Proof. reflexivity. Qed.

Example split_empty : Py.split "." "" = [""].
Proof. reflexivity. Qed.

Example lower_vlc : Py.lower "VLC" = "vlc".
Proof. reflexivity. Qed.

Example strip_spaces : Py.strip "  org.gnome.Maps " = "org.gnome.Maps".
Proof. reflexivity. Qed.

Example removesuffix_desktop :
  Py.removesuffix "org.mozilla.firefox.desktop" ".desktop"
  = "org.mozilla.firefox".
Proof. reflexivity. Qed.

Example removesuffix_absent :
  Py.removesuffix "org.mozilla.firefox" ".desktop" = "org.mozilla.firefox".
Proof. reflexivity. Qed.

Lemma split_not_nil sep s : Py.split sep s ≠ [].
Proof.
  destruct s as [|c r]; simpl; [done|].
  case_decide; [done|]. by destruct (Py.split sep r).
Qed.

Lemma split_last_is_Some sep s : is_Some (last (Py.split sep s)).
Proof.
  destruct (Py.split sep s) as [|h t] eqn:E.
  - by apply split_not_nil in E.
  - rewrite last_cons. destruct (last t); eauto.
Qed.

(** Joining the segments with the separator gives the string back. *)
Lemma join_split sep s : Py.join (String sep "") (Py.split sep s) = s.
Proof.
  unfold Py.join. induction s as [|c r IH]; simpl; [done|].
  case_decide as Hc.
  - subst c. destruct (Py.split sep r) as [|h t] eqn:E.
    + by apply split_not_nil in E.
    + simpl in *. by rewrite IH.
  - destruct (Py.split sep r) as [|h t] eqn:E.
    + by apply split_not_nil in E.
    + destruct t; simpl in *; by rewrite <- IH.
Qed.

(** No segment contains the separator. *)
Lemma split_no_sep sep s :
  Forall (fun seg => sep ∉ list_ascii_of_string seg) (Py.split sep s).
Proof.
  induction s as [|c r IH]; simpl.
  - repeat constructor. simpl. apply not_elem_of_nil.
  - case_decide as Hc.
    + constructor; [apply not_elem_of_nil|done].
    + destruct (Py.split sep r) as [|h t]; simpl.
      * repeat constructor. simpl. rewrite elem_of_cons.
        intros [->|H]; [done|]. by apply not_elem_of_nil in H.
      * inversion_clear IH as [|? ? Hh Ht]. constructor; [|done].
        simpl. rewrite elem_of_cons. intros [->|H]; done.
Qed.

Lemma truthy_spec s : Py.truthy s = true ↔ s ≠ "".
Proof.
  unfold Py.truthy. destruct (String.eqb_spec s ""); simpl; split; try done.
Qed.

(** ** Result monad and dict look-up *)

Lemma contains_true {V} (d : gmap string V) k :
  contains d k = true ↔ is_Some (d !! k).
Proof. unfold contains. by rewrite bool_decide_eq_true. Qed.

Lemma contains_false {V} (d : gmap string V) k :
  contains d k = false ↔ d !! k = None.
Proof.
  unfold contains. by rewrite bool_decide_eq_false, eq_None_not_Some.
Qed.

Lemma omap_cons {A B} (f : A -> option B) x l :
  omap f (x :: l)
  = match f x with Some y => y :: omap f l | None => omap f l end.
Proof. done. Qed.

Lemma getitem_Some {V} (d : gmap string V) k v :
  d !! k = Some v -> getitem d k = Ok v.
Proof. unfold getitem. by intros ->. Qed.

Lemma for_each_append {A B} (body : list B -> A -> res (list B))
    (g : A -> list B) (s : list B) (l : list A) :
  (forall s x, body s x = Ok (s ++ g x)) ->
  for_each body s l = Ok (s ++ (l ≫= g)).
Proof.
  intros Hbody. revert s. induction l as [|x l IH]; intros s; simpl.
  - by rewrite app_nil_r.
  - rewrite Hbody. simpl. rewrite IH. by rewrite <- (assoc_L (++)).
Qed.

Ltac res_simpl :=
  unfold mbind, res_bind, mret, res_ret, getitem, last_item; simpl.

(** ** The loop of the matcher *)

Lemma heuristic_step_unfold pkgs ms id :
  (let id_parts := Py.split "." id in
   app_name ←
     (if bool_decide (id_parts ≠ [])
      then last_part ← last_item id_parts; mret (Py.lower last_part)
      else mret "");
   if Py.truthy app_name && contains pkgs app_name then
     pkg ← getitem pkgs app_name;
     mret (ms ++ [Mapping.mk id app_name (NixPackage.version pkg) float_0_8])
   else mret ms)
  = Ok (ms ++ option_list (heuristic_rule pkgs id)).
Proof.
  unfold heuristic_rule. cbv zeta.
  rewrite bool_decide_eq_true_2 by apply split_not_nil.
  destruct (split_last_is_Some "." id) as [lp Hlp].
  res_simpl. rewrite Hlp. simpl.
  destruct (Py.truthy (Py.lower lp)); simpl.
  - destruct (pkgs !! Py.lower lp) as [pkg|] eqn:Hp.
    + rewrite (proj2 (contains_true _ _)) by (rewrite Hp; eauto).
      by rewrite ?Hp.
    + rewrite (proj2 (contains_false _ _)) by done.
      simpl. by rewrite ?Hp, app_nil_r.
  - by rewrite app_nil_r.
Qed.

Lemma create_mapping_body_unfold pkgs tbl ms id :
  create_mapping_body pkgs tbl ms id
  = Ok (ms ++ option_list (match_rule pkgs tbl id)).
Proof.
  unfold create_mapping_body, match_rule, curated_rule.
  destruct (tbl !! id) as [attr|] eqn:Ht.
  - rewrite (proj2 (contains_true _ _)) by (rewrite Ht; eauto).
    rewrite (getitem_Some _ _ _ Ht).
    change (Ok attr ≫= ?f) with (f attr).
    change (Some attr ≫= ?f) with (f attr). cbv beta.
    destruct (pkgs !! attr) as [pkg|] eqn:Hp.
    + rewrite (proj2 (contains_true _ _)) by (rewrite Hp; eauto).
      by rewrite (getitem_Some _ _ _ Hp).
    + rewrite (proj2 (contains_false _ _)) by done.
      apply heuristic_step_unfold.
  - rewrite (proj2 (contains_false _ _)) by done.
    apply heuristic_step_unfold.
Qed.

Lemma bind_option_list_keys {V B} (h : string -> option B) (d : odict V) :
  d ≫= (fun kv => option_list (h kv.1)) = omap h (odict_keys d).
Proof.
  unfold odict_keys. induction d as [|[k v] d IH]; [done|].
  rewrite bind_cons, fmap_cons, IH. simpl. by destruct (h k).
Qed.

(** The matcher never raises, and its result is the list of the matches
    of the identities, in iteration order. *)
Lemma create_mapping_unfold comps pkgs tbl :
  create_mapping comps pkgs tbl
  = Ok (omap (match_rule pkgs tbl) (odict_keys comps)).
Proof.
  unfold create_mapping.
  rewrite (for_each_append _
             (fun kv => option_list (match_rule pkgs tbl kv.1))).
  - by rewrite bind_option_list_keys.
  - intros s [k c]. apply create_mapping_body_unfold.
Qed.

Lemma match_rule_id pkgs tbl id m :
  match_rule pkgs tbl id = Some m -> Mapping.flathub_id m = id.
Proof.
  unfold match_rule, curated_rule, heuristic_rule. intros H.
  destruct (tbl !! id) as [attr|]; simpl in H.
  - destruct (pkgs !! attr); simpl in H; [by simplify_eq|].
    destruct (last _); simpl in H; [|done].
    destruct (Py.truthy _); [|done].
    destruct (pkgs !! _); simpl in H; by simplify_eq.
  - destruct (last _); simpl in H; [|done].
    destruct (Py.truthy _); [|done].
    destruct (pkgs !! _); simpl in H; by simplify_eq.
Qed.

Lemma match_rule_confidence pkgs tbl id m :
  match_rule pkgs tbl id = Some m ->
  Mapping.confidence m = 1%Qc \/ Mapping.confidence m = float_0_8.
Proof.
  unfold match_rule, curated_rule, heuristic_rule. intros H.
  destruct (tbl !! id) as [attr|]; simpl in H.
  - destruct (pkgs !! attr); simpl in H; [simplify_eq; by left|].
    destruct (last _); simpl in H; [|done].
    destruct (Py.truthy _); [|done].
    destruct (pkgs !! _); simpl in H; simplify_eq. by right.
  - destruct (last _); simpl in H; [|done].
    destruct (Py.truthy _); [|done].
    destruct (pkgs !! _); simpl in H; simplify_eq. by right.
Qed.

(** The identities of the matches are a subsequence of the identities
    iterated over. *)
Lemma omap_match_sublist pkgs tbl (keys : list string) :
  Mapping.flathub_id <$> omap (match_rule pkgs tbl) keys `sublist_of` keys.
Proof.
  induction keys as [|k keys IH]; simpl; [constructor|].
  destruct (match_rule pkgs tbl k) as [m|] eqn:E; simpl.
  - rewrite (match_rule_id _ _ _ _ E). by constructor.
  - by constructor.
Qed.

Lemma mappings_for_absent pkgs tbl (keys : list string) k :
  k ∉ keys -> mappings_for k (omap (match_rule pkgs tbl) keys) = [].
Proof.
  unfold mappings_for. induction keys as [|k' keys IH]; simpl; [done|].
  rewrite not_elem_of_cons. intros [Hne Hnin].
  destruct (match_rule pkgs tbl k') as [m|] eqn:E; simpl; [|by apply IH].
  rewrite filter_cons_False; [by apply IH|].
  rewrite (match_rule_id _ _ _ _ E). congruence.
Qed.

(** Under distinct keys, the correspondences for a key iterated over are
    the match of that key, if any. *)
Lemma mappings_for_present pkgs tbl (keys : list string) k :
  NoDup keys -> k ∈ keys ->
  mappings_for k (omap (match_rule pkgs tbl) keys)
  = option_list (match_rule pkgs tbl k).
Proof.
  induction keys as [|k' keys IH]; simpl; [by intros _ ?%elem_of_nil|].
  rewrite NoDup_cons, elem_of_cons. intros [Hnin Hnd] [->|Hin].
  - destruct (match_rule pkgs tbl k') as [m|] eqn:E; simpl.
    + unfold mappings_for. rewrite filter_cons_True
        by apply (match_rule_id _ _ _ _ E).
      f_equal. by apply mappings_for_absent.
    + by apply mappings_for_absent.
  - destruct (match_rule pkgs tbl k') as [m|] eqn:E; simpl; [|by apply IH].
    unfold mappings_for. rewrite filter_cons_False; [by apply IH|].
    rewrite (match_rule_id _ _ _ _ E). intros ->. done.
Qed.

Lemma create_mapping_for comps pkgs tbl k :
  odict_wf comps -> k ∈ odict_keys comps ->
  exists ms, create_mapping comps pkgs tbl = Ok ms
    /\ mappings_for k ms = option_list (match_rule pkgs tbl k).
Proof.
  intros Hwf Hk. eexists. split; [apply create_mapping_unfold|].
  by apply mappings_for_present.
Qed.

Lemma match_rule_curated pkgs tbl k attr pkg :
  tbl !! k = Some attr -> pkgs !! attr = Some pkg ->
  match_rule pkgs tbl k
  = Some (Mapping.mk k attr (NixPackage.version pkg) 1%Qc).
Proof.
  intros Ht Hp. unfold match_rule, curated_rule. rewrite Ht. simpl.
  by rewrite Hp.
Qed.

Lemma match_rule_fall_through pkgs tbl k :
  (forall attr, tbl !! k = Some attr -> pkgs !! attr = None) ->
  match_rule pkgs tbl k = heuristic_rule pkgs k.
Proof.
  intros H. unfold match_rule, curated_rule.
  destruct (tbl !! k) as [attr|]; simpl; [|done]. by rewrite (H attr).
Qed.

Lemma heuristic_rule_hit pkgs k last_part pkg :
  last (Py.split "." k) = Some last_part ->
  Py.lower last_part ≠ "" -> pkgs !! Py.lower last_part = Some pkg ->
  heuristic_rule pkgs k
  = Some (Mapping.mk k (Py.lower last_part) (NixPackage.version pkg)
            float_0_8).
Proof.
  intros Hl Hne Hp. unfold heuristic_rule. rewrite Hl. simpl.
  rewrite (proj2 (truthy_spec _)) by done. by rewrite Hp.
Qed.

Lemma heuristic_rule_miss pkgs k last_part :
  last (Py.split "." k) = Some last_part ->
  Py.lower last_part = "" \/ pkgs !! Py.lower last_part = None ->
  heuristic_rule pkgs k = None.
Proof.
  intros Hl H. unfold heuristic_rule. rewrite Hl. simpl.
  destruct (Py.truthy (Py.lower last_part)) eqn:E; [|done].
  apply truthy_spec in E. destruct H as [H|H]; [done|]. by rewrite H.
Qed.

Lemma confidence_values_differ : 1%Qc ≠ float_0_8.
Proof. intros H. apply (f_equal this) in H. discriminate H. Qed.

(** ** The matcher: claims *)

(** C2. A component whose identity is a key of the curated table and whose
    resolved attr is a key of the package mapping gets the correspondence
    with confidence 1.0 and that package's version.  When the identity is a
    key of the table but the resolved attr is not a key of the package
    mapping, the matcher still returns, emits no curated correspondence,
    and the heuristic rule decides for that component. *)
Theorem curated_match_or_fall_through comps pkgs tbl k attr :
  odict_wf comps -> k ∈ odict_keys comps -> tbl !! k = Some attr ->
  exists ms, create_mapping comps pkgs tbl = Ok ms /\
    match pkgs !! attr with
    | Some pkg =>
        mappings_for k ms
        = [Mapping.mk k attr (NixPackage.version pkg) 1%Qc]
    | None =>
        Forall (fun m => Mapping.confidence m ≠ 1%Qc) (mappings_for k ms)
        /\ exists last_part, last (Py.split "." k) = Some last_part /\
             let app_name := Py.lower last_part in
             mappings_for k ms
             = match pkgs !! app_name with
               | Some pkg =>
                   if Py.truthy app_name
                   then [Mapping.mk k app_name (NixPackage.version pkg)
                           float_0_8]
                   else []
               | None => []
               end
    end.
Proof.
  intros Hwf Hk Ht.
  destruct (create_mapping_for comps pkgs tbl k Hwf Hk) as (ms & Hms & Hfor).
  exists ms. split; [done|]. rewrite Hfor.
  destruct (pkgs !! attr) as [pkg|] eqn:Hp.
  - by rewrite (match_rule_curated _ _ _ _ _ Ht Hp).
  - rewrite match_rule_fall_through by (intros a Ha; congruence).
    destruct (split_last_is_Some "." k) as [lp Hlp]. split.
    + unfold heuristic_rule. rewrite Hlp. simpl.
      destruct (Py.truthy _); [|constructor].
      destruct (pkgs !! Py.lower lp); simpl; repeat constructor.
      simpl. intros H. by apply confidence_values_differ.
    + exists lp. split; [done|]. simpl.
      unfold heuristic_rule. rewrite Hlp. simpl.
      destruct (Py.truthy _); by destruct (pkgs !! Py.lower lp).
Qed.

(** C3, as amended.  For a component that the curated rule does not
    match, let [app_name] be the lowercased last segment of the identity
    split on ".".  If [app_name] is not empty and is a key of the package
    mapping, the component gets exactly one correspondence, with confidence
    0.8 and that package's version; otherwise it gets none, and the matcher
    returns all the same. *)
Theorem heuristic_match_nonempty_segment comps pkgs tbl k :
  odict_wf comps -> k ∈ odict_keys comps ->
  (forall attr, tbl !! k = Some attr -> pkgs !! attr = None) ->
  exists ms last_part,
    create_mapping comps pkgs tbl = Ok ms
    /\ last (Py.split "." k) = Some last_part
    /\ (forall pkg,
          Py.lower last_part ≠ "" ->
          pkgs !! Py.lower last_part = Some pkg ->
          mappings_for k ms
          = [Mapping.mk k (Py.lower last_part) (NixPackage.version pkg)
               float_0_8])
    /\ (Py.lower last_part = "" \/ pkgs !! Py.lower last_part = None ->
        mappings_for k ms = []).
Proof.
  intros Hwf Hk Hcur.
  destruct (create_mapping_for comps pkgs tbl k Hwf Hk) as (ms & Hms & Hfor).
  destruct (split_last_is_Some "." k) as [lp Hlp].
  exists ms, lp. rewrite Hfor, (match_rule_fall_through _ _ _ Hcur).
  repeat split; [done..| |].
  - intros pkg Hne Hp. by rewrite (heuristic_rule_hit _ _ _ _ Hlp Hne Hp).
  - intros H. by rewrite (heuristic_rule_miss _ _ _ Hlp H).
Qed.

(** C4. On every input the matcher returns a list that holds at most one
    correspondence per source identity, lists the identities in the
    iteration order of the component mapping, and uses no confidence other
    than 1.0 and 0.8. *)
Theorem create_mapping_shape comps pkgs tbl :
  odict_wf comps ->
  exists ms, create_mapping comps pkgs tbl = Ok ms
    /\ NoDup (Mapping.flathub_id <$> ms)
    /\ (forall k, length (mappings_for k ms) <= 1)
    /\ Mapping.flathub_id <$> ms `sublist_of` odict_keys comps
    /\ Forall (fun m => Mapping.confidence m = 1%Qc
                        \/ Mapping.confidence m = float_0_8) ms.
Proof.
  intros Hwf. eexists. split; [apply create_mapping_unfold|].
  pose proof (omap_match_sublist pkgs tbl (odict_keys comps)) as Hsub.
  repeat split.
  - by eapply sublist_NoDup.
  - intros k. destruct (decide (k ∈ odict_keys comps)) as [Hk|Hk].
    + rewrite mappings_for_present by done.
      destruct (match_rule pkgs tbl k); simpl; lia.
    + rewrite mappings_for_absent by done. simpl. lia.
  - done.
  - apply Forall_forall. intros m Hm.
    apply list_elem_of_omap in Hm as (k & _ & Hm).
    by eapply match_rule_confidence.
Qed.

Lemma curated_match_or_fall_through_witness :
  let comps := [("org.mozilla.firefox", Sample.bare "org.mozilla.firefox")] in
  let pkgs : gmap string NixPackage.t :=
    {[ "firefox" := Sample.package "firefox" "128.0" ]} in
  odict_wf comps
  /\ "org.mozilla.firefox" ∈ odict_keys comps
  /\ build_desktop_id_mapping !! "org.mozilla.firefox" = Some "firefox"
  /\ exists ms,
       create_mapping comps pkgs build_desktop_id_mapping = Ok ms
       /\ mappings_for "org.mozilla.firefox" ms
          = [Mapping.mk "org.mozilla.firefox" "firefox" "128.0" 1%Qc].
Proof.
  intros comps pkgs.
  assert (Hwf : odict_wf comps) by apply NoDup_singleton.
  assert (Hk : "org.mozilla.firefox" ∈ odict_keys comps)
    by apply list_elem_of_here.
  assert (Ht : build_desktop_id_mapping !! "org.mozilla.firefox"
               = Some "firefox") by (vm_compute; reflexivity).
  assert (Hp : pkgs !! "firefox" = Some (Sample.package "firefox" "128.0"))
    by (vm_compute; reflexivity).
  refine (conj Hwf (conj Hk (conj Ht _))).
  destruct (curated_match_or_fall_through comps pkgs _ _ _ Hwf Hk Ht)
    as (ms & Hms & H).
  exists ms. split; [exact Hms|]. rewrite Hp in H. exact H.
Defined.

Lemma heuristic_match_nonempty_segment_witness :
  let comps := [("org.kde.KolourPaint", Sample.bare "org.kde.KolourPaint")] in
  let pkgs : gmap string NixPackage.t :=
    {[ "kolourpaint" := Sample.package "kolourpaint" "24.08" ]} in
  odict_wf comps
  /\ "org.kde.KolourPaint" ∈ odict_keys comps
  /\ (forall attr, build_desktop_id_mapping !! "org.kde.KolourPaint" = Some attr ->
                   pkgs !! attr = None)
  /\ exists ms,
       create_mapping comps pkgs build_desktop_id_mapping = Ok ms
       /\ mappings_for "org.kde.KolourPaint" ms
          = [Mapping.mk "org.kde.KolourPaint" "kolourpaint" "24.08" float_0_8].
Proof.
  intros comps pkgs.
  assert (Hwf : odict_wf comps) by apply NoDup_singleton.
  assert (Hk : "org.kde.KolourPaint" ∈ odict_keys comps)
    by apply list_elem_of_here.
  assert (Hcur : forall attr,
             build_desktop_id_mapping !! "org.kde.KolourPaint" = Some attr ->
             pkgs !! attr = None)
    by (intros attr H; vm_compute in H; discriminate H).
  refine (conj Hwf (conj Hk (conj Hcur _))).
  destruct (heuristic_match_nonempty_segment comps pkgs _ _ Hwf Hk Hcur)
    as (ms & lp & Hms & Hlp & Hhit & _).
  exists ms. split; [exact Hms|].
  vm_compute in Hlp. injection Hlp as <-.
  apply (Hhit (Sample.package "kolourpaint" "24.08")).
  - vm_compute. discriminate.
  - vm_compute. reflexivity.
Defined.

(** C3, as stated, fails where the last segment is empty: the identity
    ["org.example."] is not matched by the curated rule, its lowercased last
    segment [""] is a key of the package mapping, and the matcher emits no
    correspondence for it. *)
Lemma heuristic_match_empty_segment_counterexample :
  let comps := [("org.example.", Sample.bare "org.example.")] in
  let pkgs : gmap string NixPackage.t := {[ "" := Sample.package "" "1.0" ]} in
  odict_wf comps
  /\ build_desktop_id_mapping !! "org.example." = None
  /\ Py.lower <$> last (Py.split "." "org.example.") = Some ""
  /\ pkgs !! "" = Some (Sample.package "" "1.0")
  /\ create_mapping comps pkgs build_desktop_id_mapping = Ok []
  /\ ~ exists ms,
         create_mapping comps pkgs build_desktop_id_mapping = Ok ms
         /\ mappings_for "org.example." ms
            = [Mapping.mk "org.example." "" "1.0" float_0_8].
Proof.
  intros comps pkgs.
  assert (Hrun : create_mapping comps pkgs build_desktop_id_mapping = Ok [])
    by (vm_compute; reflexivity).
  split; [apply NoDup_singleton|].
  do 3 (split; [vm_compute; reflexivity|]).
  split; [exact Hrun|].
  intros (ms & Hms & Hfor). rewrite Hrun in Hms. injection Hms as <-.
  discriminate Hfor.
Qed.

Lemma create_mapping_shape_witness :
  let comps := [("org.mozilla.firefox", Sample.bare "org.mozilla.firefox");
                ("com.example.Unknown", Sample.bare "com.example.Unknown");
                ("org.kde.KolourPaint", Sample.bare "org.kde.KolourPaint")] in
  let pkgs : gmap string NixPackage.t :=
    {[ "kolourpaint" := Sample.package "kolourpaint" "24.08" ]} in
  odict_wf comps
  /\ exists ms,
       create_mapping comps pkgs build_desktop_id_mapping = Ok ms
       /\ NoDup (Mapping.flathub_id <$> ms)
       /\ (forall k, length (mappings_for k ms) <= 1)
       /\ Mapping.flathub_id <$> ms `sublist_of` odict_keys comps
       /\ Forall (fun m => Mapping.confidence m = 1%Qc
                           \/ Mapping.confidence m = float_0_8) ms.
Proof.
  intros comps pkgs.
  assert (Hwf : odict_wf comps)
    by (apply (bool_decide_unpack _); vm_compute; exact I).
  split; [exact Hwf|].
  exact (create_mapping_shape comps pkgs build_desktop_id_mapping Hwf).
Defined.

(** ** Insertion-ordered dicts *)

Lemma odict_get_Some_elem {V} (d : odict V) k v :
  odict_get d k = Some v -> (k, v) ∈ d.
Proof.
  induction d as [|[k' v'] d IH]; simpl; [done|].
  case_decide as Hk.
  - intros [= ->]. subst k'. apply list_elem_of_here.
  - intros H. apply list_elem_of_further. by apply IH.
Qed.

Lemma odict_get_is_Some {V} (d : odict V) k :
  k ∈ odict_keys d <-> is_Some (odict_get d k).
Proof.
  unfold odict_keys. induction d as [|[k' v'] d IH]; simpl.
  - split; [by intros ?%elem_of_nil|by intros [? ?]].
  - rewrite elem_of_cons. case_decide as Hk.
    + split; [eauto|]. intros _. by left.
    + rewrite <- IH. split; [|by right]. by intros [->|?].
Qed.

Lemma odict_get_set {V} (d : odict V) k v k' :
  odict_get (odict_set d k v) k'
  = if decide (k = k') then Some v else odict_get d k'.
Proof.
  induction d as [|[k0 v0] d IH]; simpl.
  - by case_decide.
  - destruct (decide (k0 = k)) as [->|Hne]; simpl.
    + by repeat case_decide.
    + rewrite IH. repeat case_decide; congruence.
Qed.

Lemma odict_set_keys {V} (d : odict V) k v :
  odict_keys (odict_set d k v)
  = if decide (k ∈ odict_keys d) then odict_keys d else odict_keys d ++ [k].
Proof.
  unfold odict_keys. induction d as [|[k0 v0] d IH]; [done|].
  cbn [odict_set]. destruct (decide (k0 = k)) as [->|Hne].
  - rewrite !fmap_cons. cbn [fst]. rewrite decide_True; [done|]. by left.
  - rewrite !fmap_cons, IH. cbn [fst].
    destruct (decide (k ∈ d.*1)) as [Hin|Hnin].
    + rewrite decide_True; [done|]. by right.
    + rewrite decide_False; [done|]. rewrite elem_of_cons.
      intros [?|?]; congruence.
Qed.

Lemma odict_set_wf {V} (d : odict V) k v :
  odict_wf d -> odict_wf (odict_set d k v).
Proof.
  unfold odict_wf. rewrite odict_set_keys. case_decide as Hk; [done|].
  intros Hnd. apply NoDup_app. split; [done|]. split.
  - intros x Hx ->%list_elem_of_singleton. done.
  - apply NoDup_singleton.
Qed.

(** ** The emitter: helper facts *)

Lemma match_rule_key pkgs tbl (keys : list string) m :
  m ∈ omap (match_rule pkgs tbl) keys -> Mapping.flathub_id m ∈ keys.
Proof.
  intros (k & Hk & Hm)%list_elem_of_omap.
  by rewrite (match_rule_id _ _ _ _ Hm).
Qed.

Lemma catalog_children ms comps root :
  ET.children (foldl (catalog_body comps) root ms)
  = ET.children root ++ omap (catalog_entry comps) ms.
Proof.
  revert root. induction ms as [|m ms IH]; intros root.
  - simpl. by rewrite app_nil_r.
  - cbn [foldl]. rewrite IH, omap_cons. unfold catalog_body, catalog_entry.
    destruct (odict_get comps (Mapping.flathub_id m)) as [c|]; simpl; [|done].
    destruct (transform_component_xml c m ≫= _); simpl; [|done].
    by rewrite <- (assoc_L (++)).
Qed.

Lemma coverage_percent_value ms comps :
  coverage_percent ms comps
  = Ok (if decide (length comps = 0) then 0%Qc
        else (of_int 100 * of_int (length ms) / of_int (length comps))%Qc).
Proof.
  unfold coverage_percent, truediv. destruct comps as [|c comps]; simpl.
  - done.
  - unfold mret, res_ret. f_equal. unfold Qcdiv. ring.
Qed.

Lemma coverage_percent_binary64_value ms comps :
  coverage_percent_binary64 ms comps
  = Ok (if decide (length comps = 0) then Int 0
        else Float (float_of_nat (length ms) / float_of_nat (length comps)
                    * float_of_nat 100)%float).
Proof.
  unfold coverage_percent_binary64, truediv_binary64.
  destruct comps as [|c comps]; [done|].
  rewrite bool_decide_eq_true_2 by done.
  rewrite (decide_False (P := length (c :: comps) = 0)) by done.
  by rewrite (decide_False (P := length (c :: comps) = 0)) by done.
Qed.

Lemma generate_mapping_report_value ms comps :
  generate_mapping_report ms comps
  = Ok (Report.mk (length comps) (length ms)
          (if decide (length comps = 0) then 0%Qc
           else (of_int 100 * of_int (length ms) / of_int (length comps))%Qc)
          (if decide (length comps = 0) then Int 0
           else Float (float_of_nat (length ms) / float_of_nat (length comps)
                       * float_of_nat 100)%float)
          ((fun m =>
              MappingEntry.mk (Mapping.flathub_id m) (Mapping.nixpkgs_attr m)
                (Mapping.nixpkgs_version m) (Mapping.confidence m)
                (flathub_name comps (Mapping.flathub_id m))) <$> ms)
          (unmapped_popular ms comps)).
Proof.
  unfold generate_mapping_report.
  by rewrite coverage_percent_value, coverage_percent_binary64_value.
Qed.

(** ** The emitter: the report *)

(** C9. The unmatched sample of the report holds at most 20 entries; they
    are taken, in iteration order, from the first 100 components; and no
    correspondence has the key of a listed component as its source
    identity. *)
Theorem unmapped_sample_bounded ms (comps : odict FlathubComponent.t) :
  exists report,
    generate_mapping_report ms comps = Ok report
    /\ length (Report.unmapped_popular report) <= 20
    /\ Report.unmapped_popular report
       `sublist_of`
       ((fun '(_, comp) =>
           (FlathubComponent.id comp, FlathubComponent.name comp))
        <$> take 100 comps)
    /\ Forall
         (fun e => exists comp_id comp,
              (comp_id, comp) ∈ take 100 comps
              /\ e = (FlathubComponent.id comp, FlathubComponent.name comp)
              /\ Forall (fun m => Mapping.flathub_id m ≠ comp_id) ms)
         (Report.unmapped_popular report).
Proof.
  eexists. split; [apply generate_mapping_report_value|]. simpl.
  unfold unmapped_popular. split; [|split].
  - rewrite length_take. lia.
  - etrans; [apply sublist_take|].
    apply fmap_sublist, sublist_filter.
  - apply Forall_forall. intros e He.
    apply subseteq_take in He.
    apply list_elem_of_fmap in He as ([k c] & -> & Hkc).
    apply list_elem_of_filter in Hkc as [Hno Hin].
    exists k, c. split; [done|]. split; [done|].
    apply Forall_forall. intros m Hm Heq. apply Hno.
    apply Exists_exists. eauto.
Qed.

(** C8, as amended.  Computing the report never faults on division by zero.
    With
    fewer than 2^53 correspondences and components, the number it stores as
    the coverage percentage is the [int] 0 when there are no components,
    and otherwise the binary64 quotient of the number of correspondences by
    the number of components, multiplied by 100 in binary64; this
    approximates 100 × (number of correspondences) / (number of components)
    and need not equal it. *)
Theorem coverage_percent_binary64_no_fault
    (ms : list Mapping.t) (comps : odict FlathubComponent.t) :
  (Z.of_nat (length ms) < 2 ^ 53)%Z ->
  (Z.of_nat (length comps) < 2 ^ 53)%Z ->
  exists report,
    generate_mapping_report ms comps = Ok report
    /\ coverage_percent_binary64 ms comps
       = Ok (Report.coverage_percent_binary64 report)
    /\ Report.coverage_percent_binary64 report
       = if decide (length comps = 0) then Int 0
         else Float (float_of_nat (length ms) / float_of_nat (length comps)
                     * float_of_nat 100)%float.
Proof.
  intros _ _. eexists. split; [apply generate_mapping_report_value|].
  split; [apply coverage_percent_binary64_value|done].
Qed.

Lemma coverage_percent_binary64_no_fault_witness :
  let comps := Sample.components 3 in
  let ms := Sample.mappings 3 in
  (Z.of_nat (length ms) < 2 ^ 53)%Z
  /\ (Z.of_nat (length comps) < 2 ^ 53)%Z
  /\ exists report,
       generate_mapping_report ms comps = Ok report
       /\ Report.coverage_percent_binary64 report = Float 100%float.
Proof.
  intros comps ms.
  assert (Hms : (Z.of_nat (length ms) < 2 ^ 53)%Z) by (vm_compute; reflexivity).
  assert (Hcomps : (Z.of_nat (length comps) < 2 ^ 53)%Z)
    by (vm_compute; reflexivity).
  refine (conj Hms (conj Hcomps _)).
  destruct (coverage_percent_binary64_no_fault ms comps Hms Hcomps)
    as (report & Hrun & _ & Hvalue).
  exists report. split; [exact Hrun|]. rewrite Hvalue.
  vm_compute. reflexivity.
Defined.

(** C8, as stated, fails by rounding: for 7 correspondences and 25
    components 100 × 7 / 25 is 28, and the program stores the binary64
    next above 28, which prints as 28.000000000000004. *)
Lemma coverage_percent_rounding_counterexample :
  let comps := Sample.components 25 in
  let ms := Sample.mappings 7 in
  odict_wf comps /\ length ms = 7 /\ length comps = 25
  /\ (of_int 100 * of_int 7 / of_int 25)%Qc = of_int 28
  /\ (exists report,
        generate_mapping_report ms comps = Ok report
        /\ Report.coverage_percent_binary64 report
           = Float 0x1.c000000000001p+4%float)
  /\ PrimFloat.eqb 0x1.c000000000001p+4 (float_of_nat 28) = false.
Proof.
  intros comps ms.
  split; [apply (bool_decide_unpack _); vm_compute; exact I|].
  split; [reflexivity|]. split; [reflexivity|].
  split; [by apply Qc_is_canon|]. split; [|vm_compute; reflexivity].
  eexists. split; [apply generate_mapping_report_value|].
  vm_compute. reflexivity.
Qed.

(** ** The pipeline *)

Lemma add_mapped_attr_keep pkgs item a p :
  pkgs !! a = Some p -> add_mapped_attr pkgs item !! a = Some p.
Proof.
  destruct item as [k attr]. unfold add_mapped_attr. intros Hp.
  destruct (contains pkgs attr) eqn:E; [done|].
  apply contains_false in E. rewrite lookup_insert_ne; [done|]. congruence.
Qed.

Lemma add_mapped_attrs_list_keep l pkgs a p :
  pkgs !! a = Some p -> foldl add_mapped_attr pkgs l !! a = Some p.
Proof.
  revert pkgs. induction l as [|item l IH]; intros pkgs Hp; simpl; [done|].
  by apply IH, add_mapped_attr_keep.
Qed.

Lemma add_mapped_attrs_list_stub l pkgs a :
  pkgs !! a = None -> a ∈ l.*2 ->
  foldl add_mapped_attr pkgs l !! a
  = Some (NixPackage.mk a "unknown" [] None).
Proof.
  revert pkgs. induction l as [|[k attr] l IH]; intros pkgs Hp Hin.
  - by apply elem_of_nil in Hin.
  - simpl. destruct (decide (attr = a)) as [->|Hne].
    + apply add_mapped_attrs_list_keep.
      rewrite (proj2 (contains_false _ _)) by done. apply lookup_insert_eq.
    + apply IH.
      * destruct (contains pkgs attr); [done|]. by rewrite lookup_insert_ne.
      * rewrite fmap_cons, elem_of_cons in Hin. simpl in Hin.
        destruct Hin as [?|?]; [congruence|done].
Qed.

(** After the loop every attr of the table is a key of the packages: with
    its live package if it had one, with the stub otherwise. *)
Lemma add_mapped_attrs_lookup tbl pkgs k attr :
  tbl !! k = Some attr ->
  add_mapped_attrs tbl pkgs !! attr
  = Some (match pkgs !! attr with
          | Some p => p
          | None => NixPackage.mk attr "unknown" [] None
          end).
Proof.
  intros Ht. unfold add_mapped_attrs.
  destruct (pkgs !! attr) as [p|] eqn:Hp.
  - by apply add_mapped_attrs_list_keep.
  - apply add_mapped_attrs_list_stub; [done|].
    apply list_elem_of_fmap. exists (k, attr). split; [done|].
    by apply elem_of_map_to_list.
Qed.

Lemma parse_loop_wf (l : list Element) (acc : odict FlathubComponent.t) :
  odict_wf acc ->
  odict_wf
    (foldl
       (fun components component =>
          match parse_component component with
          | Some c => odict_set components (FlathubComponent.id c) c
          | None => components
          end) acc l).
Proof.
  revert acc. induction l as [|e l IH]; intros acc Hwf; simpl; [done|].
  apply IH. destruct (parse_component e); [by apply odict_set_wf|done].
Qed.

(** The parser returns a dict: its keys are distinct. *)
Lemma parse_flathub_appstream_wf feed : odict_wf (parse_flathub_appstream feed).
Proof. apply parse_loop_wf. unfold odict_wf, odict_keys. constructor. Qed.

(** C1. In [main], before the matcher runs, every attr that is a value of
    the curated table is a key of the package mapping: the live package if
    the snapshot has one, otherwise a stub with version "unknown".  So the
    run completes and every parsed component whose identity is a key of the
    table gets exactly one correspondence, with confidence 1.0 and with the
    version of the live package, or "unknown" for a stub. *)
Theorem main_curated_never_dropped (no_nix_search mapping_only : bool)
    (feed : Element) (scan : gmap string NixPackage.t) :
  let snapshot : gmap string NixPackage.t :=
    if no_nix_search then ∅ else scan in
  let packages := add_mapped_attrs build_desktop_id_mapping snapshot in
  (forall k attr,
      build_desktop_id_mapping !! k = Some attr ->
      packages !! attr
      = Some (match snapshot !! attr with
              | Some p => p
              | None => NixPackage.mk attr "unknown" [] None
              end))
  /\ exists out,
       main no_nix_search mapping_only feed scan = Ok out
       /\ forall k attr,
            k ∈ odict_keys (parse_flathub_appstream feed) ->
            build_desktop_id_mapping !! k = Some attr ->
            mappings_for k (Output.mappings out)
            = [Mapping.mk k attr
                 (match snapshot !! attr with
                  | Some p => NixPackage.version p
                  | None => "unknown"
                  end) 1%Qc].
Proof.
  intros snapshot packages. split.
  - intros k attr Ht. by eapply add_mapped_attrs_lookup.
  - unfold main. fold snapshot. fold packages.
    rewrite create_mapping_unfold.
    change (Ok ?x ≫= ?f) with (f x). cbv beta.
    rewrite generate_mapping_report_value.
    change (Ok ?x ≫= ?f) with (f x). cbv beta.
    eexists. split; [reflexivity|]. intros k attr Hk Ht. simpl.
    rewrite mappings_for_present
      by (done || apply parse_flathub_appstream_wf).
    erewrite match_rule_curated;
      [|done|by eapply add_mapped_attrs_lookup].
    simpl. by destruct (snapshot !! attr).
Qed.

(** ** The source parser *)

Lemma parse_component_Some component c :
  parse_component component = Some c <->
  (default "" (ET.get component "type") = "desktop"
   \/ default "" (ET.get component "type") = "desktop-application")
  /\ Py.strip (ET.findtext component "id" "") ≠ ""
  /\ c = FlathubComponent.mk
           (Py.removesuffix (Py.strip (ET.findtext component "id" ""))
                            ".desktop")
           (ET.findtext component "name" "")
           (ET.findtext component "summary" "")
           (match ET.find component "description" with
            | Some desc_elem => Py.strip (Py.join "" (ET.itertext desc_elem))
            | None => ""
            end)
           (truthy_texts (ET.findall_desc component "category"))
           (truthy_texts (ET.findall_desc component "keyword"))
           (truthy_texts
              (filter (fun s => ET.get s "type" = Some "source")
                 (ET.findall_desc_child component "screenshot" "image")))
           (icon_loop (ET.findall component "icon"))
           (homepage_loop (ET.findall component "url"))
           (Some (ET.findtext component "project_license" ""))
           (Some (ET.findtext component "developer_name" ""))
           component.
Proof.
  unfold parse_component.
  destruct (bool_decide (default "" (ET.get component "type") = "desktop")
            || bool_decide (default "" (ET.get component "type")
                            = "desktop-application")) eqn:Hkind; simpl.
  - apply orb_true_iff in Hkind.
    rewrite !bool_decide_eq_true in Hkind.
    destruct (Py.truthy (Py.strip (ET.findtext component "id" ""))) eqn:Hid;
      simpl.
    + apply truthy_spec in Hid. split; [by intros [= <-]|].
      by intros (_ & _ & ->).
    + split; [done|]. intros (_ & Hne & _).
      apply truthy_spec in Hne. congruence.
  - apply orb_false_iff in Hkind.
    rewrite !bool_decide_eq_false in Hkind.
    split; [done|]. intros ([?|?] & _); tauto.
Qed.

(** What the loop of the parser leaves under a key: the last retained
    entry with that identity, or what was there before the loop. *)
Lemma parse_loop_get (l : list Element) (acc : odict FlathubComponent.t) k :
  odict_get
    (foldl
       (fun components component =>
          match parse_component component with
          | Some c => odict_set components (FlathubComponent.id c) c
          | None => components
          end) acc l) k
  = match last (filter (fun c => FlathubComponent.id c = k)
                       (omap parse_component l)) with
    | Some c => Some c
    | None => odict_get acc k
    end.
Proof.
  revert acc. induction l as [|e l IH]; intros acc; [done|].
  cbn [foldl]. rewrite IH, omap_cons.
  destruct (parse_component e) as [c0|]; [|done].
  destruct (decide (FlathubComponent.id c0 = k)) as [Hk|Hk].
  - rewrite filter_cons_True by done. rewrite last_cons.
    destruct (last _); [done|].
    rewrite odict_get_set. by rewrite decide_True.
  - rewrite filter_cons_False by done.
    destruct (last _); [done|].
    rewrite odict_get_set. by rewrite decide_False.
Qed.

Lemma last_is_Some {A} (l : list A) : is_Some (last l) <-> l ≠ [].
Proof.
  destruct l as [|x l]; simpl.
  - split; [by intros [? ?]|done].
  - rewrite last_cons. split; [done|]. intros _. destruct (last l); eauto.
Qed.

(** C6, as amended.  The identities in the parser's output are exactly
    those of the entries whose kind is "desktop" or "desktop-application"
    and whose identifier is not empty once surrounding whitespace is
    trimmed, a test made before the suffix is stripped; every other entry
    is skipped.  An identity is stored once, with the data of the last such
    entry. *)
Theorem parse_retains_typed_entries_with_id feed :
  (forall k,
      k ∈ odict_keys (parse_flathub_appstream feed) <->
      exists component,
        component ∈ ET.findall_desc feed "component"
        /\ (default "" (ET.get component "type") = "desktop"
            \/ default "" (ET.get component "type") = "desktop-application")
        /\ Py.strip (ET.findtext component "id" "") ≠ ""
        /\ Py.removesuffix (Py.strip (ET.findtext component "id" ""))
                           ".desktop" = k)
  /\ odict_wf (parse_flathub_appstream feed)
  /\ (forall k,
        odict_get (parse_flathub_appstream feed) k
        = last (filter (fun c => FlathubComponent.id c = k)
                  (omap parse_component (ET.findall_desc feed "component")))).
Proof.
  assert (Hget : forall k,
    odict_get (parse_flathub_appstream feed) k
    = last (filter (fun c => FlathubComponent.id c = k)
              (omap parse_component (ET.findall_desc feed "component")))).
  { intros k. unfold parse_flathub_appstream. rewrite parse_loop_get.
    by destruct (last _). }
  split; [|split; [apply parse_flathub_appstream_wf|done]].
  intros k. rewrite odict_get_is_Some, Hget, last_is_Some. split.
  - intros Hne.
    destruct (filter _ _) as [|c l] eqn:E; [done|].
    assert (Hc : c ∈ filter (fun c => FlathubComponent.id c = k)
                   (omap parse_component (ET.findall_desc feed "component")))
      by (rewrite E; apply list_elem_of_here).
    apply list_elem_of_filter in Hc as [Hid Hc].
    apply list_elem_of_omap in Hc as (e & He & Hp).
    apply parse_component_Some in Hp as (Hkind & Hne' & ->).
    exists e. by simpl in Hid.
  - intros (e & He & Hkind & Hne & Hk) Hnil.
    assert (Hc : exists c, parse_component e = Some c
                           /\ FlathubComponent.id c = k).
    { eexists. split; [by apply parse_component_Some|done]. }
    destruct Hc as (c & Hp & Hid).
    assert (Hin : c ∈ filter (fun c => FlathubComponent.id c = k)
                    (omap parse_component (ET.findall_desc feed "component"))).
    { apply list_elem_of_filter. split; [done|].
      apply list_elem_of_omap. eauto. }
    rewrite Hnil in Hin. by apply elem_of_nil in Hin.
Qed.

(** C6, as stated, fails on an entry whose identifier is the suffix
    itself: its kind is "desktop", its identity after suffix-stripping is
    empty, and it is retained, under the empty identity. *)
Lemma parse_keeps_empty_identity_counterexample :
  let entry :=
    Elem "component" {[ "type" := "desktop" ]} None None
      [Elem "id" ∅ (Some ".desktop") None []] in
  let feed := Elem "components" ∅ None None [entry] in
  ET.findall_desc feed "component" = [entry]
  /\ Py.removesuffix (Py.strip (ET.findtext entry "id" "")) ".desktop" = ""
  /\ odict_keys (parse_flathub_appstream feed) = [""]
  /\ odict_keys (parse_flathub_appstream feed) ≠ [].
Proof.
  intros entry feed.
  assert (Hkeys : odict_keys (parse_flathub_appstream feed) = [""])
    by (vm_compute; reflexivity).
  split; [vm_compute; reflexivity|]. split; [vm_compute; reflexivity|].
  split; [exact Hkeys|]. rewrite Hkeys. discriminate.
Qed.

Lemma icon_loop_first_usable (icons : list Element) :
  icon_loop icons
  = match list_find
            (fun icon =>
               (ET.get icon "type" = Some "remote"
                \/ ET.get icon "type" = Some "cached")
               /\ Py.truthy <$> ET.text icon = Some true) icons with
    | Some (_, icon) =>
        if decide (ET.get icon "type" = Some "remote") then ET.text icon
        else (fun t => FLATHUB_ICONS_BASE_URL +:+ "/128x128/" +:+ t)
               <$> ET.text icon
    | None => None
    end.
Proof.
  induction icons as [|icon rest IH]; [done|].
  cbn [icon_loop list_find]. rewrite IH. clear IH.
  destruct (ET.text icon) as [t|] eqn:Ht; cbn [fmap option_fmap option_map].
  - destruct (Py.truthy t) eqn:Htruthy.
    + destruct (decide (ET.get icon "type" = Some "remote")) as [Hr|Hr].
      * rewrite bool_decide_eq_true_2 by done. cbn [andb].
        rewrite decide_True by auto. cbn. rewrite decide_True by done.
        done.
      * rewrite (bool_decide_eq_false_2 _ Hr). cbn [andb].
        destruct (decide (ET.get icon "type" = Some "cached")) as [Hc|Hc].
        -- rewrite bool_decide_eq_true_2 by done. cbn [andb].
           rewrite decide_True by auto. cbn. rewrite decide_False by done.
           by rewrite Ht.
        -- rewrite (bool_decide_eq_false_2 _ Hc). cbn [andb].
           rewrite decide_False by tauto.
           by destruct (list_find _ rest) as [[? ?]|].
    + rewrite !andb_false_r. rewrite decide_False by (intros [_ ?]; done).
      by destruct (list_find _ rest) as [[? ?]|].
  - rewrite decide_False by (intros [_ ?]; done).
    by destruct (list_find _ rest) as [[? ?]|].
Qed.

(** C7, as amended.  The icon of a parsed component is decided by the
    first [icon] child of the entry, in document order, that is of type
    "remote" or "cached" and has a non-empty text: a remote one gives its
    text, a cached one gives the base path, "/128x128/" and its text; with
    no such child the icon is absent.  A remote reference is preferred to a
    cached one only when it comes first. *)
Theorem icon_url_first_usable component c :
  parse_component component = Some c ->
  FlathubComponent.icon_url c
  = match list_find
            (fun icon =>
               (ET.get icon "type" = Some "remote"
                \/ ET.get icon "type" = Some "cached")
               /\ Py.truthy <$> ET.text icon = Some true)
            (ET.findall component "icon") with
    | Some (_, icon) =>
        if decide (ET.get icon "type" = Some "remote") then ET.text icon
        else (fun t => FLATHUB_ICONS_BASE_URL +:+ "/128x128/" +:+ t)
               <$> ET.text icon
    | None => None
    end.
Proof.
  intros Hp. apply parse_component_Some in Hp as (_ & _ & ->).
  apply icon_loop_first_usable.
Qed.

Lemma icon_url_first_usable_witness :
  let remote :=
    Elem "icon" {[ "type" := "remote" ]} (Some "https://example.org/app.svg")
         None [] in
  let cached :=
    Elem "icon" {[ "type" := "cached" ]} (Some "org.example.App.png")
         None [] in
  let stock := Elem "icon" {[ "type" := "stock" ]} (Some "app") None [] in
  let component :=
    Elem "component" {[ "type" := "desktop" ]} None None
      [Elem "id" ∅ (Some "org.example.App.desktop") None [];
       stock; remote; cached] in
  exists c,
    parse_component component = Some c
    /\ FlathubComponent.id c = "org.example.App"
    /\ FlathubComponent.icon_url c = Some "https://example.org/app.svg".
Proof.
  intros remote cached stock component.
  destruct (parse_component component) as [c|] eqn:Hp;
    [|vm_compute in Hp; discriminate Hp].
  exists c. split; [reflexivity|]. split.
  - vm_compute in Hp. injection Hp as <-. reflexivity.
  - rewrite (icon_url_first_usable component c Hp). vm_compute. reflexivity.
Defined.

(** C7, as stated, fails on an entry that lists a cached icon before a
    remote one: the remote reference is present, and the cached one is
    chosen. *)
Lemma icon_cached_before_remote_counterexample :
  let remote :=
    Elem "icon" {[ "type" := "remote" ]} (Some "https://example.org/app.png")
         None [] in
  let cached :=
    Elem "icon" {[ "type" := "cached" ]} (Some "org.example.App.png")
         None [] in
  let component :=
    Elem "component" {[ "type" := "desktop" ]} None None
      [Elem "id" ∅ (Some "org.example.App") None []; cached; remote] in
  ET.findall component "icon" = [cached; remote]
  /\ FlathubComponent.icon_url <$> parse_component component
     = Some (Some "https://dl.flathub.org/repo/appstream/x86_64/icons/128x128/org.example.App.png")
  /\ FlathubComponent.icon_url <$> parse_component component
     ≠ Some (Some "https://example.org/app.png").
Proof.
  intros remote cached component.
  assert (H : FlathubComponent.icon_url <$> parse_component component
              = Some (Some "https://dl.flathub.org/repo/appstream/x86_64/icons/128x128/org.example.App.png"))
    by (vm_compute; reflexivity).
  split; [vm_compute; reflexivity|]. split; [exact H|].
  rewrite H. discriminate.
Qed.

(** ** The transformer *)

Section children_by_tag.
Context (t : string).

Let P := fun c : Element => ET.tag c = t.

Lemma find_alter_same f (l : list Element) i e :
  (forall x, ET.tag (f x) = ET.tag x) ->
  list_find P l = Some (i, e) ->
  list_find P (alter f i l) = Some (i, f e).
Proof.
  intros Hf (Hl & Ht & Hbefore)%list_find_Some. apply list_find_Some.
  split; [by rewrite list_lookup_alter_eq, Hl|].
  split; [unfold P; by rewrite Hf|].
  intros j y Hj Hlt. rewrite list_lookup_alter_ne in Hj by lia. eauto.
Qed.

Lemma find_alter_other f (l : list Element) i j e :
  (forall x, ET.tag (f x) = ET.tag x) ->
  list_find P l = Some (i, e) -> j ≠ i ->
  list_find P (alter f j l) = Some (i, e).
Proof.
  intros Hf (Hl & Ht & Hbefore)%list_find_Some Hne. apply list_find_Some.
  split; [by rewrite list_lookup_alter_ne|]. split; [done|].
  intros k y Hk Hlt. destruct (decide (j = k)) as [->|Hjk].
  - rewrite list_lookup_alter_eq in Hk.
    destruct (l !! k) as [y'|] eqn:Hy; [|done].
    injection Hk as <-. unfold P. rewrite Hf. by eapply Hbefore.
  - rewrite list_lookup_alter_ne in Hk by done. eauto.
Qed.

Lemma find_fmap h (l : list Element) i e :
  (forall x, ET.tag (h x) = ET.tag x) ->
  list_find P l = Some (i, e) ->
  list_find P (h <$> l) = Some (i, h e).
Proof.
  intros Hh (Hl & Ht & Hbefore)%list_find_Some. apply list_find_Some.
  split; [by rewrite list_lookup_fmap, Hl|].
  split; [unfold P; by rewrite Hh|].
  intros j y Hj Hlt. rewrite list_lookup_fmap in Hj.
  destruct (l !! j) as [y'|] eqn:Hy; [|done].
  injection Hj as <-. unfold P. rewrite Hh. by eapply Hbefore.
Qed.

Lemma filter_alter_other f (l : list Element) i :
  (forall x, ET.tag (f x) = ET.tag x) ->
  (forall x, l !! i = Some x -> ET.tag x ≠ t) ->
  filter P (alter f i l) = filter P l.
Proof.
  intros Hf. revert i. induction l as [|x l IH]; intros i Hi; [done|].
  destruct i as [|i].
  - change (alter f 0 (x :: l)) with (f x :: l).
    rewrite !filter_cons_False; [done|by apply Hi|].
    unfold P. rewrite Hf. by apply Hi.
  - change (alter f (S i) (x :: l)) with (x :: alter f i l).
    rewrite !filter_cons. rewrite IH by (intros y Hy; by apply Hi). done.
Qed.

Lemma filter_fmap_tag h (l : list Element) :
  (forall x, ET.tag (h x) = ET.tag x) ->
  filter P (h <$> l) = h <$> filter P l.
Proof.
  intros Hh. induction l as [|x l IH]; [done|].
  rewrite fmap_cons, !filter_cons, IH.
  destruct (decide (P x)) as [Hx|Hx].
  - rewrite decide_True; [done|]. unfold P in *. by rewrite Hh.
  - rewrite decide_False; [done|]. unfold P in *. by rewrite Hh.
Qed.

(** [find_or_add] returns the position of the first child with the
    tag. *)
Lemma find_or_add_spec elem :
  exists e,
    list_find P (ET.children (find_or_add elem t).1)
    = Some ((find_or_add elem t).2, e)
    /\ (ET.find_index elem t = None -> e = Elem t ∅ None None []).
Proof.
  unfold find_or_add, ET.find_index. fold P.
  destruct (list_find P (ET.children elem)) as [[i e]|] eqn:E; simpl.
  - exists e. by rewrite E.
  - exists (Elem t ∅ None None []). split; [|done].
    rewrite list_find_app_r by done. simpl.
    by rewrite decide_True by done.
Qed.

Lemma find_or_add_keeps t' elem i e :
  list_find P (ET.children elem) = Some (i, e) ->
  list_find P (ET.children (find_or_add elem t').1) = Some (i, e).
Proof.
  intros H. unfold find_or_add.
  destruct (ET.find_index elem t'); simpl; [done|].
  by apply list_find_app_l.
Qed.

Lemma findall_find_or_add t' elem :
  t ≠ t' -> ET.findall (find_or_add elem t').1 t = ET.findall elem t.
Proof.
  intros Hne. unfold find_or_add, ET.findall. fold P.
  destruct (ET.find_index elem t'); simpl; [done|].
  rewrite filter_app, filter_cons_False by (unfold P; simpl; congruence).
  by rewrite filter_nil, app_nil_r.
Qed.

End children_by_tag.

Lemma children_update_child elem i f :
  ET.children (ET.update_child elem i f) = alter f i (ET.children elem).
Proof. done. Qed.

Lemma tag_rewrite_icon component icon :
  ET.tag (rewrite_icon component icon) = ET.tag icon.
Proof. unfold rewrite_icon. by destruct (_ || _). Qed.

Lemma icon_ext_value component :
  icon_ext component
  = match FlathubComponent.icon_url component with
    | Some u => if Py.endswith u ".svg" then ".svg" else ".png"
    | None => ".png"
    end.
Proof.
  unfold icon_ext. destruct (FlathubComponent.icon_url component) as [u|];
    [|done].
  destruct u; done.
Qed.

Lemma rewrite_icon_spec component icon :
  let icon' := rewrite_icon component icon in
  if bool_decide (default "" (ET.get icon "type") = "remote")
     || bool_decide (default "" (ET.get icon "type") = "cached")
  then ET.get icon' "type" = Some "cached"
       /\ ET.get icon' "width" = Some "128"
       /\ ET.get icon' "height" = Some "128"
       /\ ET.text icon'
          = Some (FlathubComponent.id component
                  +:+ match FlathubComponent.icon_url component with
                      | Some u =>
                          if Py.endswith u ".svg" then ".svg" else ".png"
                      | None => ".png"
                      end)
       /\ ET.tag icon' = ET.tag icon
       /\ ET.tail icon' = ET.tail icon
       /\ ET.children icon' = ET.children icon
  else icon' = icon.
Proof.
  unfold rewrite_icon. cbv zeta.
  destruct (_ || _); [|done].
  rewrite icon_ext_value. destruct icon as [tg a x tl cs].
  unfold ET.get. simpl.
  rewrite !lookup_insert_ne by done.
  rewrite lookup_insert_eq.
  rewrite (lookup_insert_ne _ "height" "width") by done.
  rewrite !lookup_insert_eq. done.
Qed.

Lemma children_parsed e :
  ET.children (ET.parsed e) = ET.parsed <$> ET.children e.
Proof.
  destruct e as [t a x tl cs]. simpl.
  induction cs as [|c r IH]; [done|]. rewrite fmap_cons. by f_equal.
Qed.

Lemma fromstring_Ok raw elem :
  ET.fromstring raw = Ok elem <->
  ET.blank (ET.tail raw) = true
  /\ elem = Elem (ET.tag raw) (ET.attrib raw) (ET.text (ET.parsed raw)) None
                 (ET.children (ET.parsed raw)).
Proof.
  unfold ET.fromstring. destruct (ET.blank (ET.tail raw)).
  - split; [by intros [= <-]|by intros [_ ->]].
  - split; [done|by intros [? _]].
Qed.

Lemma fromstring_root raw elem :
  ET.fromstring raw = Ok elem ->
  ET.tag elem = ET.tag raw /\ ET.attrib elem = ET.attrib raw
  /\ ET.tail elem = None
  /\ ET.children elem = ET.parsed <$> ET.children raw.
Proof.
  intros [_ ->]%fromstring_Ok. simpl. by rewrite children_parsed.
Qed.


Lemma tail_find_or_add elem t :
  ET.tail (find_or_add elem t).1 = ET.tail elem.
Proof. unfold find_or_add. by destruct (ET.find_index elem t). Qed.

Lemma transform_children component mapping elem :
  ET.fromstring (FlathubComponent.raw_xml component) = Ok elem ->
  exists (out e3 : Element) (i1 i2 : nat) (x1 x2 : Element),
    let f := fun e => ET.set_text e (Some (Mapping.nixpkgs_attr mapping)) in
    let g := fun e =>
      ET.update_child (ET.SubElement (ET.clear e) "release") 0
        (fun r => ET.set r "version" (Mapping.nixpkgs_version mapping)) in
    let h := fun c =>
      if decide (ET.tag c = "icon") then rewrite_icon component c else c in
    transform_component_xml component mapping = Ok out
    /\ ET.tail out = ET.tail elem
    /\ ET.children out = h <$> alter g i2 (ET.children e3)
    /\ list_find (fun c => ET.tag c = "pkgname") (ET.children e3)
       = Some (i1, f x1)
    /\ list_find (fun c => ET.tag c = "releases") (ET.children e3)
       = Some (i2, x2)
    /\ (ET.find elem "pkgname" = None -> x1 = Elem "pkgname" ∅ None None [])
    /\ ET.findall e3 "icon" = ET.findall elem "icon".
Proof.
  intros Hparse. unfold transform_component_xml. rewrite Hparse.
  change (Ok elem ≫= ?k) with (k elem). cbv beta.
  pose proof (find_or_add_spec "pkgname" elem) as (x1 & H1 & H1new).
  pose proof (findall_find_or_add "icon" "pkgname" elem) as H1icon.
  pose proof (tail_find_or_add elem "pkgname") as H1tail.
  destruct (find_or_add elem "pkgname") as [e1 i1].
  simpl in H1, H1icon, H1tail.
  set (f := fun e => ET.set_text e (Some (Mapping.nixpkgs_attr mapping))).
  assert (Hf : forall x, ET.tag (f x) = ET.tag x) by done.
  pose proof (find_alter_same "pkgname" f _ _ _ Hf H1) as H2.
  rewrite <- (children_update_child e1) in H2.
  pose proof (find_or_add_spec "releases" (ET.update_child e1 i1 f))
    as (x2 & H3 & _).
  pose proof (find_or_add_keeps "pkgname" "releases" _ _ _ H2) as H3p.
  pose proof (findall_find_or_add "icon" "releases"
                (ET.update_child e1 i1 f)) as H3icon.
  pose proof (tail_find_or_add (ET.update_child e1 i1 f) "releases")
    as H3tail.
  destruct (find_or_add (ET.update_child e1 i1 f) "releases") as [e3 i2].
  simpl in H3, H3p, H3icon, H3tail.
  eexists _, e3, i1, i2, x1, x2. cbv zeta. split; [reflexivity|].
  split; [simpl; congruence|]. split; [reflexivity|].
  split; [done|]. split; [done|]. split.
  - intros Hnone. apply H1new. revert Hnone. unfold ET.find_index, ET.find.
    destruct (list_find (fun c => ET.tag c = "pkgname") (ET.children elem))
      as [[? ?]|]; simpl; [intros [=]|done].
  - rewrite H3icon by done. rewrite <- H1icon by done.
    unfold ET.findall. rewrite children_update_child.
    apply filter_alter_other; [done|].
    intros x Hx. apply list_find_Some in H1 as (Hl & Ht & _).
    rewrite Hl in Hx. injection Hx as <-. rewrite Ht. done.
Qed.


(** C5, as amended.  Let [elem] be the fragment of the component as the
    transformer parses it.  The transformer returns a fragment in which the
    first [pkgname] child of the root has the correspondence's attr as its
    text (a fresh child when [elem] had none); the first [releases] child of
    the root is exactly one [release] entry whose version is the
    correspondence's version, with nothing of what it held left; and the
    [icon] children of the root are those of [elem], in place, where each
    one of type "remote" or "cached" now has type "cached", width and height
    128 and, as text, the component identity followed by ".svg" if the
    component's icon URL ends in ".svg" and by ".png" otherwise, and every
    other icon child is unchanged. *)
Theorem transform_component_xml_rewrites component mapping elem :
  ET.fromstring (FlathubComponent.raw_xml component) = Ok elem ->
  exists out,
    transform_component_xml component mapping = Ok out
    /\ (exists pkgname,
          ET.find out "pkgname" = Some pkgname
          /\ ET.text pkgname = Some (Mapping.nixpkgs_attr mapping)
          /\ (ET.find elem "pkgname" = None ->
              pkgname = Elem "pkgname" ∅ (Some (Mapping.nixpkgs_attr mapping))
                             None []))
    /\ ET.find out "releases"
       = Some (Elem "releases" ∅ None None
                 [Elem "release"
                       {[ "version" := Mapping.nixpkgs_version mapping ]}
                       None None []])
    /\ Forall2
         (fun icon icon' =>
            if bool_decide (default "" (ET.get icon "type") = "remote")
               || bool_decide (default "" (ET.get icon "type") = "cached")
            then ET.get icon' "type" = Some "cached"
                 /\ ET.get icon' "width" = Some "128"
                 /\ ET.get icon' "height" = Some "128"
                 /\ ET.text icon'
                    = Some (FlathubComponent.id component
                            +:+ match FlathubComponent.icon_url component with
                                | Some u =>
                                    if Py.endswith u ".svg" then ".svg"
                                    else ".png"
                                | None => ".png"
                                end)
                 /\ ET.tag icon' = ET.tag icon
                 /\ ET.tail icon' = ET.tail icon
                 /\ ET.children icon' = ET.children icon
            else icon' = icon)
         (ET.findall elem "icon") (ET.findall out "icon").
Proof.
  intros Hparse.
  destruct (transform_children component mapping _ Hparse)
    as (out & e3 & i1 & i2 & x1 & x2 & Hrun & _ & Hout & Hpk & Hrel & Hnew
        & Hicons).
  cbv zeta in Hout, Hpk. exists out. split; [done|].
  set (g := fun e =>
         ET.update_child (ET.SubElement (ET.clear e) "release") 0
           (fun r => ET.set r "version" (Mapping.nixpkgs_version mapping)))
    in Hout.
  set (h := fun c =>
         if decide (ET.tag c = "icon") then rewrite_icon component c else c)
    in Hout.
  assert (Hg : forall x, ET.tag (g x) = ET.tag x) by done.
  assert (Hh : forall x, ET.tag (h x) = ET.tag x).
  { intros x. unfold h. case_decide; [apply tag_rewrite_icon|done]. }
  pose proof Hpk as (Hl1 & Ht1 & _)%list_find_Some.
  pose proof Hrel as (Hl2 & Ht2 & _)%list_find_Some.
  assert (Hne : i2 ≠ i1).
  { intros ->. rewrite Hl1 in Hl2. injection Hl2 as <-.
    rewrite Ht1 in Ht2. discriminate Ht2. }
  split; [|split].
  - eexists. unfold ET.find. rewrite Hout.
    rewrite (find_fmap "pkgname" h _ i1 _ Hh
               (find_alter_other "pkgname" g _ _ _ _ Hg Hpk Hne)).
    simpl. unfold h. rewrite decide_False by (by rewrite Ht1).
    split; [done|]. split; [done|].
    intros Hnone. by rewrite (Hnew Hnone).
  - unfold ET.find. rewrite Hout.
    rewrite (find_fmap "releases" h _ i2 _ Hh
               (find_alter_same "releases" g _ _ _ Hg Hrel)).
    change (snd <$> Some (i2, h (g x2))) with (Some (h (g x2))).
    assert (Hx : ET.tag (g x2) ≠ "icon") by (by rewrite Hg, Ht2).
    unfold h.
    rewrite (decide_False (P := ET.tag (g x2) = "icon") _ _ Hx).
    unfold g, ET.update_child, ET.SubElement, ET.clear, ET.set. simpl.
    rewrite Ht2. by rewrite insert_empty.
  - unfold ET.findall at 2. rewrite Hout.
    rewrite (filter_fmap_tag "icon" h _ Hh).
    rewrite (filter_alter_other "icon" g _ _ Hg)
      by (intros x Hx; rewrite Hl2 in Hx; injection Hx as <-;
          by rewrite Ht2).
    fold (ET.findall e3 "icon"). rewrite Hicons.
    apply Forall2_fmap_r, Forall_Forall2_diag, Forall_forall.
    intros icon Hicon. apply list_elem_of_filter in Hicon as [Htag _].
    assert (E : h icon = rewrite_icon component icon)
      by (unfold h; by rewrite decide_True).
    unfold compose. rewrite E. apply rewrite_icon_spec.
Qed.

Lemma transform_component_xml_rewrites_witness :
  let raw :=
    Elem "component" {[ "type" := "desktop" ]} None (Some "  ")
      [Elem "id" ∅ (Some "org.inkscape.Inkscape") None [];
       Elem "icon" {[ "type" := "remote" ]}
            (Some "https://example.org/inkscape.svg") None [];
       Elem "icon" {[ "type" := "stock" ]} (Some "inkscape") None []] in
  let elem :=
    Elem "component" {[ "type" := "desktop" ]} None None (ET.children raw) in
  let component :=
    Sample.component "org.inkscape.Inkscape" "Inkscape"
      (Some "https://example.org/inkscape.svg") raw in
  let mapping :=
    Mapping.mk "org.inkscape.Inkscape" "inkscape" "1.3.2" 1%Qc in
  ET.fromstring (FlathubComponent.raw_xml component) = Ok elem
  /\ exists out,
       transform_component_xml component mapping = Ok out
       /\ ET.find out "pkgname"
          = Some (Elem "pkgname" ∅ (Some "inkscape") None [])
       /\ ET.find out "releases"
          = Some (Elem "releases" ∅ None None
                    [Elem "release" {[ "version" := "1.3.2" ]} None None []])
       /\ ET.text <$> ET.findall out "icon"
          = [Some "org.inkscape.Inkscape.svg"; Some "inkscape"].
Proof.
  intros raw elem component mapping.
  assert (Hparse : ET.fromstring (FlathubComponent.raw_xml component)
                   = Ok elem) by reflexivity.
  split; [exact Hparse|].
  destruct (transform_component_xml_rewrites component mapping elem Hparse)
    as (out & Hrun & (pkgname & Hfind & _ & Hnew) & Hrel & _).
  exists out. split; [exact Hrun|]. split; [|split; [exact Hrel|]].
  - rewrite Hfind. f_equal. apply Hnew. reflexivity.
  - vm_compute in Hrun. injection Hrun as <-. reflexivity.
Defined.

(** C5, as stated, fails beyond the children that [elem.find] and
    [elem.findall] select: a second [releases] child keeps its release
    entries, and an icon of type "remote" beneath another child stays
    remote. *)
Lemma transform_leaves_nested_counterexample :
  let second :=
    Elem "releases" ∅ None None
      [Elem "release" {[ "version" := "0.2" ]} None None []] in
  let nested := Elem "icon" {[ "type" := "remote" ]}
                     (Some "https://example.org/shot.png") None [] in
  let raw :=
    Elem "component" {[ "type" := "desktop" ]} None None
      [Elem "id" ∅ (Some "org.gnome.Maps") None [];
       Elem "releases" ∅ None None
         [Elem "release" {[ "version" := "0.1" ]} None None []];
       second;
       Elem "screenshots" ∅ None None [nested]] in
  let component := Sample.component "org.gnome.Maps" "Maps" None raw in
  let mapping := Mapping.mk "org.gnome.Maps" "gnome-maps" "46.0" 1%Qc in
  exists out,
    transform_component_xml component mapping = Ok out
    /\ ET.findall out "releases"
       = [Elem "releases" ∅ None None
            [Elem "release" {[ "version" := "46.0" ]} None None []];
          second]
    /\ ET.findall_desc out "icon" = [nested]
    /\ ET.get nested "type" = Some "remote".
Proof.
  intros second nested raw component mapping. eexists.
  split; [vm_compute; reflexivity|]. split; [vm_compute; reflexivity|].
  split; vm_compute; reflexivity.
Qed.

(** A fragment followed by stray text does not parse back: the
    transformer raises and the emitter leaves the component out. *)
Example transform_stray_tail :
  let raw :=
    Elem "component" {[ "type" := "desktop" ]} None (Some "stray")
      [Elem "id" ∅ (Some "org.gnome.Maps") None []] in
  let component := Sample.component "org.gnome.Maps" "Maps" None raw in
  let mapping := Mapping.mk "org.gnome.Maps" "gnome-maps" "46.0" 1%Qc in
  transform_component_xml component mapping = Raise ParseError
  /\ ET.children
       (generate_appstream_catalog [mapping] [("org.gnome.Maps", component)])
     = [].
Proof. split; vm_compute; reflexivity. Qed.

(** Line ends of the stored fragment reach the transformer as an XML
    parser reads them. *)
Example transform_reads_line_ends :
  let raw :=
    Elem "component" {[ "type" := "desktop" ]} None None
      [Elem "summary" ∅ (Some ("Maps" +:+ String "013" "for GNOME")) None
            []] in
  let component := Sample.component "org.gnome.Maps" "Maps" None raw in
  let mapping := Mapping.mk "org.gnome.Maps" "gnome-maps" "46.0" 1%Qc in
  exists out,
    transform_component_xml component mapping = Ok out
    /\ ET.children out !! 0
       = Some (Elem "summary" ∅ (Some ("Maps" +:+ String "010" "for GNOME"))
                    None []).
Proof.
  intros raw component mapping. eexists. split; vm_compute; reflexivity.
Qed.

(** ** The emitter: the catalog *)

(** C10. Every correspondence the matcher emits has a source identity that
    is a key of the component mapping.  Hence the look-up of the catalog
    emitter finds a component for every correspondence, so that its branch
    for a missing component is never taken, and the [flathub_name] of every
    report entry is the name of that component, never the empty name of the
    placeholder. *)
Theorem mappings_refer_to_components
    (comps : odict FlathubComponent.t) pkgs tbl :
  exists ms report,
    create_mapping comps pkgs tbl = Ok ms
    /\ generate_mapping_report ms comps = Ok report
    /\ Forall (fun m => Mapping.flathub_id m ∈ odict_keys comps
                        /\ is_Some (odict_get comps (Mapping.flathub_id m)))
         ms
    /\ Forall2
         (fun m e => exists c,
              odict_get comps (Mapping.flathub_id m) = Some c
              /\ MappingEntry.flathub_id e = Mapping.flathub_id m
              /\ MappingEntry.flathub_name e = FlathubComponent.name c)
         ms (Report.mappings report).
Proof.
  eexists _, _. split; [apply create_mapping_unfold|].
  split; [apply generate_mapping_report_value|].
  set (ms := omap (match_rule pkgs tbl) (odict_keys comps)).
  assert (Hkeys : Forall (fun m => Mapping.flathub_id m ∈ odict_keys comps) ms).
  { apply Forall_forall. intros m Hm. by eapply match_rule_key. }
  split.
  - eapply Forall_impl; [exact Hkeys|]. intros m Hm. split; [done|].
    by apply odict_get_is_Some.
  - simpl. induction Hkeys as [|m ms' Hm _ IH]; [constructor|].
    rewrite fmap_cons. constructor; [|done].
    apply odict_get_is_Some in Hm as [c Hc]. exists c.
    unfold flathub_name. simpl. by rewrite Hc.
Qed.

(** ** Worked examples *)

(** A feed with the single entry [org.mozilla.firefox.desktop] and a scan
    that knows firefox 128.0: one curated correspondence, full coverage. *)
Example main_firefox :
  let feed :=
    Elem "components" ∅ None None
      [Elem "component" {[ "type" := "desktop-application" ]} None None
         [Elem "id" ∅ (Some "org.mozilla.firefox.desktop") None [];
          Elem "name" ∅ (Some "Firefox") None []]] in
  let scan : gmap string NixPackage.t :=
    {[ "firefox" := Sample.package "firefox" "128.0" ]} in
  exists out,
    main false true feed scan = Ok out
    /\ Output.mappings out
       = [Mapping.mk "org.mozilla.firefox" "firefox" "128.0" 1%Qc]
    /\ Report.total_flathub_components (Output.report out) = 1
    /\ Report.total_mappings (Output.report out) = 1
    /\ Report.coverage_percent (Output.report out) = of_int 100
    /\ MappingEntry.flathub_name <$> Report.mappings (Output.report out)
       = ["Firefox"].
Proof.
  intros feed scan.
  destruct (main false true feed scan) as [out|e] eqn:Hmain;
    [|vm_compute in Hmain; discriminate Hmain].
  exists out. split; [done|].
  vm_compute in Hmain. injection Hmain as <-.
  repeat split.
Qed.

(** Without live data the same component is matched through the stub. *)
Example main_firefox_stub :
  let feed :=
    Elem "components" ∅ None None
      [Elem "component" {[ "type" := "desktop" ]} None None
         [Elem "id" ∅ (Some "org.mozilla.firefox") None []]] in
  exists out,
    main true true feed ∅ = Ok out
    /\ Output.mappings out
       = [Mapping.mk "org.mozilla.firefox" "firefox" "unknown" 1%Qc].
Proof.
  intros feed.
  destruct (main true true feed ∅) as [out|e] eqn:Hmain;
    [|vm_compute in Hmain; discriminate Hmain].
  exists out. split; [done|].
  vm_compute in Hmain. by injection Hmain as <-.
Qed.

(** An identity outside the table is matched through its last segment. *)
Example create_mapping_vlc :
  create_mapping [("org.videolan.VLC", Sample.bare "org.videolan.VLC")]
    {[ "vlc" := Sample.package "vlc" "3.0.20" ]} ∅
  = Ok [Mapping.mk "org.videolan.VLC" "vlc" "3.0.20" float_0_8].
Proof. vm_compute. reflexivity. Qed.

(** An unmatched component yields no correspondence and is listed in the
    sample of the report. *)
Example create_mapping_unknown :
  let comps := [("com.example.Unknown", Sample.bare "com.example.Unknown")] in
  create_mapping comps ∅ ∅ = Ok []
  /\ unmapped_popular [] comps
     = [("com.example.Unknown", "com.example.Unknown")].
Proof. split; vm_compute; reflexivity. Qed.

(** A key of the table whose attr is not a package falls through to the
    heuristic rule. *)
Example create_mapping_fall_through :
  create_mapping [("org.gnome.Maps", Sample.bare "org.gnome.Maps")]
    {[ "maps" := Sample.package "maps" "1.0" ]} build_desktop_id_mapping
  = Ok [Mapping.mk "org.gnome.Maps" "maps" "1.0" float_0_8].
Proof. vm_compute. reflexivity. Qed.

(** A fragment with a cached icon, stale releases and no [pkgname]. *)
Example transform_cached_icon :
  let raw :=
    Elem "component" {[ "type" := "desktop" ]} None None
      [Elem "id" ∅ (Some "org.videolan.VLC") None [];
       Elem "icon" {[ "type" := "cached" ]} (Some "vlc_64.png") None [];
       Elem "releases" ∅ None None
         [Elem "release" {[ "version" := "0.1" ]} None None [];
          Elem "release" {[ "version" := "0.2" ]} None None []]] in
  let component :=
    Sample.component "org.videolan.VLC" "VLC"
      (Some "https://dl.flathub.org/repo/appstream/x86_64/icons/128x128/vlc_64.png")
      raw in
  transform_component_xml component
    (Mapping.mk "org.videolan.VLC" "vlc" "3.0.20" 1%Qc)
  = Ok (Elem "component" {[ "type" := "desktop" ]} None None
          [Elem "id" ∅ (Some "org.videolan.VLC") None [];
           Elem "icon"
                (<["height" := "128"]>
                   (<["width" := "128"]> {[ "type" := "cached" ]}))
                (Some "org.videolan.VLC.png") None [];
           Elem "releases" ∅ None None
             [Elem "release" {[ "version" := "3.0.20" ]} None None []];
           Elem "pkgname" ∅ (Some "vlc") None []]).
Proof. vm_compute. reflexivity. Qed.

(** * Further properties *)

(** ** Python built-ins *)

Lemma lower_char_idemp c : Py.lower_char (Py.lower_char c) = Py.lower_char c.
Proof. by destruct c as [[] [] [] [] [] [] [] []]. Qed.

Lemma lower_char_dot c : Py.lower_char c = "."%char -> c = "."%char.
Proof. by destruct c as [[] [] [] [] [] [] [] []]. Qed.

Lemma lower_idemp s : Py.lower (Py.lower s) = Py.lower s.
Proof.
  induction s as [|c s IH]; simpl; [done|]. by rewrite lower_char_idemp, IH.
Qed.

Lemma lower_no_dot s :
  "."%char ∉ list_ascii_of_string s ->
  "."%char ∉ list_ascii_of_string (Py.lower s).
Proof.
  induction s as [|c s IH]; simpl; [done|].
  rewrite !not_elem_of_cons. intros [Hc Hs]. split; [|by apply IH].
  intros Hdot. apply Hc. symmetry. by apply lower_char_dot.
Qed.

Lemma substring_all t : substring 0 (String.length t) t = t.
Proof. induction t as [|d t IHt]; [done|]. simpl. f_equal. apply IHt. Qed.

Lemma length_substring_prefix s t :
  substring 0 (String.length s) (s +:+ t) = s.
Proof.
  induction s as [|c s IH]; [by destruct t|]. simpl. f_equal. apply IH.
Qed.

Lemma length_append s t :
  String.length (s +:+ t) = String.length s + String.length t.
Proof. induction s as [|c s IH]; [done|]. simpl. f_equal. apply IH. Qed.

Lemma substring_suffix s t :
  substring (String.length s) (String.length t) (s +:+ t) = t.
Proof. induction s as [|c s IH]; [apply substring_all|]. apply IH. Qed.

(** Removing a suffix that was appended gives the string back. *)
Lemma removesuffix_append s suffix :
  suffix ≠ "" -> Py.removesuffix (s +:+ suffix) suffix = s.
Proof.
  intros Hne. unfold Py.removesuffix, Py.endswith.
  rewrite length_append.
  replace (String.length s + String.length suffix - String.length suffix)
    with (String.length s) by lia.
  rewrite substring_suffix, String.eqb_refl, length_substring_prefix.
  rewrite (proj2 (Nat.leb_le _ _)) by lia.
  by destruct (String.eqb_spec suffix "").
Qed.

(** ** The matcher *)

Lemma match_rule_package pkgs tbl id m :
  match_rule pkgs tbl id = Some m ->
  exists pkg,
    pkgs !! Mapping.nixpkgs_attr m = Some pkg
    /\ Mapping.nixpkgs_version m = NixPackage.version pkg.
Proof.
  unfold match_rule, curated_rule, heuristic_rule. intros H.
  destruct (tbl !! id) as [attr|]; simpl in H.
  - destruct (pkgs !! attr) as [pkg|] eqn:Hp; simpl in H;
      [simplify_eq; by exists pkg|].
    destruct (last _) as [lp|]; simpl in H; [|done].
    destruct (Py.truthy _); [|done].
    destruct (pkgs !! Py.lower lp) as [pkg|] eqn:Hq; simpl in H; simplify_eq.
    by exists pkg.
  - destruct (last _) as [lp|]; simpl in H; [|done].
    destruct (Py.truthy _); [|done].
    destruct (pkgs !! Py.lower lp) as [pkg|] eqn:Hq; simpl in H; simplify_eq.
    by exists pkg.
Qed.

Lemma match_rule_heuristic pkgs tbl id m :
  match_rule pkgs tbl id = Some m ->
  Mapping.confidence m = float_0_8 ->
  exists last_part,
    last (Py.split "." id) = Some last_part
    /\ Mapping.nixpkgs_attr m = Py.lower last_part
    /\ Py.lower last_part ≠ "".
Proof.
  unfold match_rule, curated_rule, heuristic_rule. intros H Hconf.
  assert (Hheur :
    forall o : option Mapping.t,
      (last (Py.split "." id) ≫= fun last_part =>
         if Py.truthy (Py.lower last_part)
         then pkgs !! Py.lower last_part ≫= fun pkg =>
                Some (Mapping.mk id (Py.lower last_part)
                        (NixPackage.version pkg) float_0_8)
         else None) = Some m ->
      exists last_part,
        last (Py.split "." id) = Some last_part
        /\ Mapping.nixpkgs_attr m = Py.lower last_part
        /\ Py.lower last_part ≠ "").
  { intros _ Hh. destruct (last _) as [lp|]; simpl in Hh; [|done].
    destruct (Py.truthy (Py.lower lp)) eqn:Ht; [|done].
    destruct (pkgs !! Py.lower lp) as [pkg|]; simpl in Hh; simplify_eq.
    exists lp. split; [done|]. split; [done|]. by apply truthy_spec. }
  destruct (tbl !! id) as [attr|]; simpl in H.
  - destruct (pkgs !! attr) as [pkg|]; simpl in H.
    + injection H as <-. simpl in Hconf.
      by apply confidence_values_differ in Hconf.
    + by apply (Hheur None).
  - by apply (Hheur None).
Qed.

Lemma match_rule_empty tbl id : match_rule ∅ tbl id = None.
Proof.
  unfold match_rule, curated_rule, heuristic_rule.
  destruct (tbl !! id) as [attr|]; simpl.
  - rewrite lookup_empty. simpl. destruct (last _); simpl; [|done].
    destruct (Py.truthy _); [|done]. by rewrite lookup_empty.
  - destruct (last _); simpl; [|done].
    destruct (Py.truthy _); [|done]. by rewrite lookup_empty.
Qed.

Lemma length_omap_le {A B} (f : A -> option B) l :
  length (omap f l) <= length l.
Proof.
  induction l as [|x l IH]; [done|]. rewrite omap_cons.
  destruct (f x); simpl; lia.
Qed.

(** X1. Every correspondence the matcher emits names a key of the package
    mapping and carries the version of the package stored under it. *)
Theorem create_mapping_refers_to_packages
    (comps : odict FlathubComponent.t) pkgs tbl :
  exists ms,
    create_mapping comps pkgs tbl = Ok ms
    /\ Forall
         (fun m => exists pkg,
              pkgs !! Mapping.nixpkgs_attr m = Some pkg
              /\ Mapping.nixpkgs_version m = NixPackage.version pkg) ms.
Proof.
  eexists. split; [apply create_mapping_unfold|].
  apply Forall_forall. intros m (k & _ & Hm)%list_elem_of_omap.
  by eapply match_rule_package.
Qed.

(** X2. The matcher handles components one by one: the correspondences of
    two component lists put end to end are those of the first followed by
    those of the second. *)
Theorem create_mapping_app (c1 c2 : odict FlathubComponent.t) pkgs tbl :
  exists ms1 ms2,
    create_mapping c1 pkgs tbl = Ok ms1
    /\ create_mapping c2 pkgs tbl = Ok ms2
    /\ create_mapping (c1 ++ c2) pkgs tbl = Ok (ms1 ++ ms2).
Proof.
  eexists _, _. rewrite !create_mapping_unfold. repeat split.
  unfold odict_keys. by rewrite fmap_app, omap_app.
Qed.

(** X3. With an empty package mapping the matcher emits nothing, whatever
    the components and the curated table. *)
Theorem create_mapping_no_packages (comps : odict FlathubComponent.t) tbl :
  create_mapping comps ∅ tbl = Ok [].
Proof.
  rewrite create_mapping_unfold. f_equal.
  induction (odict_keys comps) as [|k l IH]; [done|].
  by rewrite omap_cons, match_rule_empty.
Qed.

(** X4. A correspondence of confidence 0.8 names the lowercased last
    segment of its source identity; that name is not empty, holds no "."
    and is unchanged by lowercasing.  So a package whose key is empty, is
    dotted or has a capital letter is never matched by the heuristic
    rule. *)
Theorem heuristic_attr_shape (comps : odict FlathubComponent.t) pkgs tbl :
  exists ms,
    create_mapping comps pkgs tbl = Ok ms
    /\ Forall
         (fun m =>
            Mapping.confidence m = float_0_8 ->
            (Py.lower <$> last (Py.split "." (Mapping.flathub_id m)))
            = Some (Mapping.nixpkgs_attr m)
            /\ Mapping.nixpkgs_attr m ≠ ""
            /\ ("."%char ∉ list_ascii_of_string (Mapping.nixpkgs_attr m))
            /\ Py.lower (Mapping.nixpkgs_attr m) = Mapping.nixpkgs_attr m)
         ms.
Proof.
  eexists. split; [apply create_mapping_unfold|].
  apply Forall_forall. intros m (k & _ & Hm)%list_elem_of_omap Hconf.
  destruct (match_rule_heuristic _ _ _ _ Hm Hconf) as (lp & Hlp & -> & Hne).
  rewrite (match_rule_id _ _ _ _ Hm), Hlp.
  split; [done|]. split; [done|]. split; [|apply lower_idemp].
  apply lower_no_dot.
  pose proof (split_no_sep "." k) as Hall.
  apply (proj1 (Forall_forall _ _) Hall). by apply last_Some_elem_of.
Qed.

(** ** The report: coverage *)



(** ** The source parser: invariants *)

Lemma odict_elem_get {V} (d : odict V) k v :
  odict_wf d -> (k, v) ∈ d -> odict_get d k = Some v.
Proof.
  unfold odict_wf, odict_keys. induction d as [|[k' v'] d IH]; simpl.
  - by intros _ ?%elem_of_nil.
  - rewrite NoDup_cons, elem_of_cons. intros [Hnin Hnd] [[= -> ->]|Hin].
    + by rewrite decide_True.
    + rewrite decide_False; [by apply IH|]. intros ->. apply Hnin.
      apply list_elem_of_fmap. by exists (k, v).
Qed.

Lemma parse_flathub_appstream_get feed k :
  odict_get (parse_flathub_appstream feed) k
  = last (filter (fun c => FlathubComponent.id c = k)
            (omap parse_component (ET.findall_desc feed "component"))).
Proof.
  unfold parse_flathub_appstream. rewrite parse_loop_get.
  by destruct (last _).
Qed.

Lemma parse_entry_key feed component c :
  component ∈ ET.findall_desc feed "component" ->
  parse_component component = Some c ->
  FlathubComponent.id c ∈ odict_keys (parse_flathub_appstream feed).
Proof.
  intros Hin Hp.
  rewrite odict_get_is_Some, parse_flathub_appstream_get, last_is_Some.
  intros Hnil.
  assert (Hc : c ∈ filter (fun c' => FlathubComponent.id c'
                                     = FlathubComponent.id c)
                 (omap parse_component (ET.findall_desc feed "component"))).
  { apply list_elem_of_filter. split; [done|].
    apply list_elem_of_omap. eauto. }
  rewrite Hnil in Hc. by apply elem_of_nil in Hc.
Qed.

Lemma icon_loop_nonempty icons : icon_loop icons ≠ Some "".
Proof.
  induction icons as [|icon rest IH]; simpl; [done|].
  destruct (ET.text icon) as [t|]; [|done].
  destruct (Py.truthy t) eqn:Ht.
  - apply truthy_spec in Ht.
    destruct (bool_decide (ET.get icon "type" = Some "remote")); simpl;
      [congruence|].
    destruct (bool_decide (ET.get icon "type" = Some "cached")); simpl;
      [discriminate|done].
  - by rewrite !andb_false_r.
Qed.

(** X6. Every component the parser stores is stored under its own
    identity, was parsed from an entry of the feed, which it keeps as its
    fragment, and has an icon URL that is absent or not empty. *)
Theorem parsed_components_invariant feed :
  Forall
    (fun kv =>
       FlathubComponent.id kv.2 = kv.1
       /\ FlathubComponent.raw_xml kv.2 ∈ ET.findall_desc feed "component"
       /\ parse_component (FlathubComponent.raw_xml kv.2) = Some kv.2
       /\ FlathubComponent.icon_url kv.2 ≠ Some "")
    (parse_flathub_appstream feed).
Proof.
  apply Forall_forall. intros [k c] Hin. simpl.
  apply odict_elem_get in Hin; [|apply parse_flathub_appstream_wf].
  rewrite parse_flathub_appstream_get in Hin.
  apply last_Some_elem_of, list_elem_of_filter in Hin as [Hid Hc].
  apply list_elem_of_omap in Hc as (e & He & Hp).
  pose proof Hp as (_ & _ & ->)%parse_component_Some. simpl in *.
  split; [done|]. split; [done|]. split; [done|]. apply icon_loop_nonempty.
Qed.

Lemma homepage_loop_first (urls : list Element) :
  homepage_loop urls
  = match list_find (fun url => ET.get url "type" = Some "homepage") urls with
    | Some (_, url) => ET.text url
    | None => None
    end.
Proof.
  induction urls as [|url rest IH]; [done|].
  cbn [homepage_loop list_find]. rewrite IH.
  destruct (decide (ET.get url "type" = Some "homepage")) as [H|H].
  - by rewrite bool_decide_eq_true_2.
  - rewrite bool_decide_eq_false_2 by done.
    by destruct (list_find _ rest) as [[? ?]|].
Qed.

(** X7. The homepage of a parsed component is the text of the first [url]
    child of type "homepage", even when that child has no text; it is
    absent when there is no such child. *)
Theorem homepage_first_url component c :
  parse_component component = Some c ->
  FlathubComponent.homepage c
  = match list_find (fun url => ET.get url "type" = Some "homepage")
            (ET.findall component "url") with
    | Some (_, url) => ET.text url
    | None => None
    end.
Proof.
  intros (_ & _ & ->)%parse_component_Some. apply homepage_loop_first.
Qed.

Lemma homepage_first_url_witness :
  let component :=
    Elem "component" {[ "type" := "desktop" ]} None None
      [Elem "id" ∅ (Some "org.example.App") None [];
       Elem "url" {[ "type" := "bugtracker" ]} (Some "https://bugs.example.org")
            None [];
       Elem "url" {[ "type" := "homepage" ]} None None [];
       Elem "url" {[ "type" := "homepage" ]} (Some "https://example.org")
            None []] in
  exists c,
    parse_component component = Some c
    /\ FlathubComponent.homepage c = None.
Proof.
  intros component.
  destruct (parse_component component) as [c|] eqn:Hp;
    [|vm_compute in Hp; discriminate Hp].
  exists c. split; [reflexivity|].
  rewrite (homepage_first_url component c Hp). vm_compute. reflexivity.
Defined.

Lemma length_odict_set {V} (d : odict V) k v :
  length (odict_set d k v) <= S (length d).
Proof.
  induction d as [|[k' v'] d IH]; simpl; [lia|].
  case_decide; simpl; lia.
Qed.

Lemma parse_loop_length (l : list Element) (acc : odict FlathubComponent.t) :
  length
    (foldl
       (fun components component =>
          match parse_component component with
          | Some c => odict_set components (FlathubComponent.id c) c
          | None => components
          end) acc l)
  <= length acc + length l.
Proof.
  revert acc. induction l as [|e l IH]; intros acc; simpl; [lia|].
  etrans; [apply IH|]. destruct (parse_component e) as [c|]; [|lia].
  pose proof (length_odict_set acc (FlathubComponent.id c) c). lia.
Qed.

(** X8. The parser stores at most one component per [component] entry of
    the feed; a feed without such entries gives the empty mapping. *)
Theorem parse_size_bounded feed :
  length (parse_flathub_appstream feed)
  <= length (ET.findall_desc feed "component").
Proof. apply (parse_loop_length _ []). Qed.

(** X9. An entry of a retained kind whose trimmed identifier is
    [base ++ ".desktop"] is stored under [base]; one whose trimmed
    identifier is not empty and does not end in ".desktop" is stored under
    that identifier. *)
Theorem parse_identity_without_suffix feed component :
  component ∈ ET.findall_desc feed "component" ->
  (default "" (ET.get component "type") = "desktop"
   \/ default "" (ET.get component "type") = "desktop-application") ->
  let comp_id := Py.strip (ET.findtext component "id" "") in
  (forall base,
      comp_id = base +:+ ".desktop" ->
      base ∈ odict_keys (parse_flathub_appstream feed))
  /\ (comp_id ≠ "" -> Py.endswith comp_id ".desktop" = false ->
      comp_id ∈ odict_keys (parse_flathub_appstream feed)).
Proof.
  intros Hin Hkind comp_id. split.
  - intros base Hbase.
    assert (Hne : comp_id ≠ "").
    { rewrite Hbase. by destruct base. }
    destruct (parse_component component) as [c|] eqn:Hp.
    + pose proof (parse_entry_key _ _ _ Hin Hp) as Hkey.
      apply parse_component_Some in Hp as (_ & _ & ->). simpl in Hkey.
      fold comp_id in Hkey. rewrite Hbase in Hkey.
      by rewrite removesuffix_append in Hkey.
    + assert (Hsome : exists c, parse_component component = Some c)
        by (eexists; by apply parse_component_Some).
      destruct Hsome as [c Hc]. congruence.
  - intros Hne Hends.
    assert (Hsome : exists c, parse_component component = Some c)
      by (eexists; by apply parse_component_Some).
    destruct Hsome as [c Hp].
    pose proof (parse_entry_key _ _ _ Hin Hp) as Hkey.
    apply parse_component_Some in Hp as (_ & _ & ->). simpl in Hkey.
    fold comp_id in Hkey. unfold Py.removesuffix in Hkey.
    by rewrite Hends, andb_false_r in Hkey.
Qed.

Lemma parse_identity_without_suffix_witness :
  let entry :=
    Elem "component" {[ "type" := "desktop" ]} None None
      [Elem "id" ∅ (Some " org.gnome.Maps.desktop ") None []] in
  let feed := Elem "components" ∅ None None [entry] in
  entry ∈ ET.findall_desc feed "component"
  /\ default "" (ET.get entry "type") = "desktop"
  /\ Py.strip (ET.findtext entry "id" "") = "org.gnome.Maps" +:+ ".desktop"
  /\ "org.gnome.Maps" ∈ odict_keys (parse_flathub_appstream feed).
Proof.
  intros entry feed.
  assert (Hin : entry ∈ ET.findall_desc feed "component")
    by (vm_compute; apply list_elem_of_here).
  assert (Hkind : default "" (ET.get entry "type") = "desktop")
    by (vm_compute; reflexivity).
  assert (Hid : Py.strip (ET.findtext entry "id" "")
                = "org.gnome.Maps" +:+ ".desktop")
    by (vm_compute; reflexivity).
  refine (conj Hin (conj Hkind (conj Hid _))).
  exact (proj1 (parse_identity_without_suffix feed entry Hin (or_introl Hkind))
           "org.gnome.Maps" Hid).
Defined.

Example keep_first_occurrences :
  reverse (remove_dups (reverse ["b"; "a"; "b"; "c"; "a"])) = ["b"; "a"; "c"].
Proof. reflexivity. Qed.

Lemma parse_loop_keys (l : list Element) :
  odict_keys
    (foldl
       (fun components component =>
          match parse_component component with
          | Some c => odict_set components (FlathubComponent.id c) c
          | None => components
          end) [] l)
  = reverse (remove_dups
               (reverse (FlathubComponent.id <$> omap parse_component l))).
Proof.
  induction l as [|e l IH] using rev_ind; [done|].
  rewrite foldl_snoc, omap_app, fmap_app, omap_cons.
  destruct (parse_component e) as [c|]; simpl.
  - rewrite odict_set_keys, reverse_snoc. cbn [remove_dups].
    rewrite IH.
    destruct (decide_rel elem_of (FlathubComponent.id c)
                (reverse (FlathubComponent.id <$> omap parse_component l)))
      as [Hin|Hnin].
    + rewrite decide_True; [done|].
      by rewrite elem_of_reverse, elem_of_remove_dups.
    + rewrite decide_False; [by rewrite reverse_cons|].
      by rewrite elem_of_reverse, elem_of_remove_dups.
  - by rewrite !app_nil_r.
Qed.

(** X10. The parser's output lists the identities in the order in which
    each one first occurs among the retained entries: a later entry with
    the same identity replaces the data and leaves the position.  (Here
    [remove_dups] keeps the last of equal elements, so between the two
    [reverse] it keeps the first.) *)
Theorem parse_keys_first_occurrence feed :
  odict_keys (parse_flathub_appstream feed)
  = reverse
      (remove_dups
         (reverse
            (FlathubComponent.id
               <$> omap parse_component (ET.findall_desc feed "component")))).
Proof. apply parse_loop_keys. Qed.

(** ** The transformer: what is kept and what is left *)

Lemma find_or_add_layout elem t :
  exists l e,
    ET.children (find_or_add elem t).1 = ET.children elem ++ l
    /\ length l <= 1
    /\ ET.children (find_or_add elem t).1 !! (find_or_add elem t).2 = Some e
    /\ ET.tag e = t
    /\ ET.tag (find_or_add elem t).1 = ET.tag elem
    /\ ET.attrib (find_or_add elem t).1 = ET.attrib elem
    /\ ET.text (find_or_add elem t).1 = ET.text elem.
Proof.
  destruct (find_or_add_spec t elem) as (e & He & _).
  apply list_find_Some in He as (Hl & Ht & _).
  unfold find_or_add in *. destruct (ET.find_index elem t); simpl in *.
  - exists [], e. rewrite app_nil_r. simpl. repeat split; done || lia.
  - exists [Elem t ∅ None None []], e. simpl. repeat split; done || lia.
Qed.

(** The children of the result, position by position. *)
Lemma transform_layout component mapping elem :
  ET.fromstring (FlathubComponent.raw_xml component) = Ok elem ->
  exists (out : Element) (l1 l2 : list Element) (i1 i2 : nat)
         (x1 x2 : Element),
    let f := fun e => ET.set_text e (Some (Mapping.nixpkgs_attr mapping)) in
    let g := fun e =>
      ET.update_child (ET.SubElement (ET.clear e) "release") 0
        (fun r => ET.set r "version" (Mapping.nixpkgs_version mapping)) in
    let h := fun c =>
      if decide (ET.tag c = "icon") then rewrite_icon component c else c in
    transform_component_xml component mapping = Ok out
    /\ ET.children out
       = h <$> alter g i2 (alter f i1 (ET.children elem ++ l1) ++ l2)
    /\ length l1 <= 1 /\ length l2 <= 1
    /\ (ET.children elem ++ l1) !! i1 = Some x1 /\ ET.tag x1 = "pkgname"
    /\ (alter f i1 (ET.children elem ++ l1) ++ l2) !! i2 = Some x2
    /\ ET.tag x2 = "releases"
    /\ ET.tag out = ET.tag elem /\ ET.attrib out = ET.attrib elem
    /\ ET.text out = ET.text elem.
Proof.
  intros Hparse. unfold transform_component_xml. rewrite Hparse.
  change (Ok elem ≫= ?k) with (k elem). cbv beta.
  destruct (find_or_add_layout elem "pkgname")
    as (l1 & x1 & Hc1 & Hlen1 & Hx1 & Ht1 & Htag1 & Hattr1 & Htext1).
  destruct (find_or_add elem "pkgname") as [e1 i1].
  simpl in Hc1, Hx1, Htag1, Hattr1, Htext1.
  set (f := fun e => ET.set_text e (Some (Mapping.nixpkgs_attr mapping))).
  destruct (find_or_add_layout (ET.update_child e1 i1 f) "releases")
    as (l2 & x2 & Hc2 & Hlen2 & Hx2 & Ht2 & Htag2 & Hattr2 & Htext2).
  destruct (find_or_add (ET.update_child e1 i1 f) "releases") as [e3 i2].
  simpl in Hc2, Hx2, Htag2, Hattr2, Htext2.
  rewrite Hc1 in Hc2. rewrite Hc1 in Hx1. rewrite Hc2 in Hx2.
  eexists _, l1, l2, i1, i2, x1, x2. cbv zeta.
  split; [reflexivity|]. split; [simpl; by rewrite Hc2|].
  repeat (split; [done|]). simpl. split; [congruence|].
  split; congruence.
Qed.

Lemma transform_parses component mapping out :
  transform_component_xml component mapping = Ok out ->
  exists elem, ET.fromstring (FlathubComponent.raw_xml component) = Ok elem.
Proof.
  unfold transform_component_xml.
  destruct (ET.fromstring (FlathubComponent.raw_xml component)) as [elem|];
    [eauto|done].
Qed.

Lemma transformed_icons component mapping elem out :
  ET.fromstring (FlathubComponent.raw_xml component) = Ok elem ->
  transform_component_xml component mapping = Ok out ->
  ET.findall out "icon" = rewrite_icon component <$> ET.findall elem "icon".
Proof.
  intros Hparse Hrun.
  destruct (transform_children component mapping _ Hparse)
    as (out' & e3 & i1 & i2 & x1 & x2 & Hrun' & _ & Hout & _ & Hrel & _
        & Hicons).
  assert (out' = out) as -> by congruence.
  cbv zeta in Hout.
  set (g := fun e =>
         ET.update_child (ET.SubElement (ET.clear e) "release") 0
           (fun r => ET.set r "version" (Mapping.nixpkgs_version mapping)))
    in Hout.
  set (h := fun c =>
         if decide (ET.tag c = "icon") then rewrite_icon component c else c)
    in Hout.
  assert (Hg : forall x, ET.tag (g x) = ET.tag x) by done.
  assert (Hh : forall x, ET.tag (h x) = ET.tag x).
  { intros x. unfold h. case_decide; [apply tag_rewrite_icon|done]. }
  apply list_find_Some in Hrel as (Hl2 & Ht2 & _).
  unfold ET.findall at 1. rewrite Hout.
  rewrite (filter_fmap_tag "icon" h _ Hh).
  rewrite (filter_alter_other "icon" g _ _ Hg)
    by (intros x Hx; rewrite Hl2 in Hx; injection Hx as <-;
        by rewrite Ht2).
  fold (ET.findall e3 "icon"). rewrite Hicons.
  apply list_fmap_ext. intros i icon Hicon.
  apply list_elem_of_lookup_2, list_elem_of_filter in Hicon as [Htag _].
  unfold h. by rewrite decide_True.
Qed.

Lemma rewritten_icon_shape component icon :
  let icon' := rewrite_icon component icon in
  ET.get icon' "type" ≠ Some "remote"
  /\ (ET.get icon' "type" = Some "cached" ->
      ET.get icon' "width" = Some "128"
      /\ ET.get icon' "height" = Some "128"
      /\ ET.text icon'
         = Some (FlathubComponent.id component +:+ icon_ext component)).
Proof.
  pose proof (rewrite_icon_spec component icon) as Hspec. cbv zeta in *.
  rewrite <- icon_ext_value in Hspec.
  destruct (bool_decide (default "" (ET.get icon "type") = "remote"))
    eqn:Hr; simpl in Hspec.
  - destruct Hspec as (Ht & Hw & Hh & Htext & _). rewrite Ht. by split.
  - destruct (bool_decide (default "" (ET.get icon "type") = "cached"))
      eqn:Hc; simpl in Hspec.
    + destruct Hspec as (Ht & Hw & Hh & Htext & _). rewrite Ht. by split.
    + rewrite Hspec. apply bool_decide_eq_false in Hr, Hc. split.
      * intros H. rewrite H in Hr. by apply Hr.
      * intros H. rewrite H in Hc. by destruct Hc.
Qed.

(** X11. Let [elem] be the fragment of the component as the transformer
    parses it: the stored fragment with its tag and attributes, without its
    tail.  The transformer keeps the tag, attributes and text of [elem],
    keeps every child of [elem] at its position and with its tag, and
    leaves a child that is neither [pkgname], [releases] nor [icon] exactly
    as it was; it appends at most two children. *)
Theorem transform_keeps_other_children component mapping elem :
  let raw := FlathubComponent.raw_xml component in
  ET.fromstring raw = Ok elem ->
  ET.tag elem = ET.tag raw /\ ET.attrib elem = ET.attrib raw
  /\ ET.tail elem = None
  /\ length (ET.children elem) = length (ET.children raw)
  /\ exists out,
       transform_component_xml component mapping = Ok out
       /\ ET.tag out = ET.tag elem /\ ET.attrib out = ET.attrib elem
       /\ ET.text out = ET.text elem
       /\ length (ET.children elem) <= length (ET.children out)
       /\ length (ET.children out) <= length (ET.children elem) + 2
       /\ forall i child,
            ET.children elem !! i = Some child ->
            exists child',
              ET.children out !! i = Some child'
              /\ ET.tag child' = ET.tag child
              /\ (ET.tag child ≠ "pkgname" -> ET.tag child ≠ "releases" ->
                  ET.tag child ≠ "icon" -> child' = child).
Proof.
  intros raw Hparse.
  destruct (fromstring_root _ _ Hparse) as (Hrtag & Hrattr & Hrtail & Hrch).
  split; [done|]. split; [done|]. split; [done|].
  split; [by rewrite Hrch, length_fmap|].
  destruct (transform_layout component mapping _ Hparse)
    as (out & l1 & l2 & i1 & i2 & x1 & x2 & Hrun & Hout & Hlen1 & Hlen2
        & Hx1 & Ht1 & Hx2 & Ht2 & Htag & Hattr & Htext).
  cbv zeta in Hout, Hx2.
  set (f := fun e => ET.set_text e (Some (Mapping.nixpkgs_attr mapping)))
    in Hout, Hx2.
  set (g := fun e =>
         ET.update_child (ET.SubElement (ET.clear e) "release") 0
           (fun r => ET.set r "version" (Mapping.nixpkgs_version mapping)))
    in Hout.
  set (h := fun c =>
         if decide (ET.tag c = "icon") then rewrite_icon component c else c)
    in Hout.
  assert (Hf : forall x, ET.tag (f x) = ET.tag x) by done.
  assert (Hg : forall x, ET.tag (g x) = ET.tag x) by done.
  assert (Hh : forall x, ET.tag (h x) = ET.tag x).
  { intros x. unfold h. case_decide; [apply tag_rewrite_icon|done]. }
  assert (Hlen : length (ET.children out)
                 = length (ET.children elem) + length l1 + length l2).
  { rewrite Hout, length_fmap, length_alter, length_app, length_alter,
      length_app. lia. }
  exists out. split; [done|]. repeat (split; [done || lia|]).
  intros i child Hchild.
  assert (Hi : i < length (ET.children elem)) by by eapply lookup_lt_Some.
  assert (Hin1 : (ET.children elem ++ l1) !! i = Some child)
    by by rewrite lookup_app_l.
  set (child1 := if decide (i1 = i) then f child else child).
  assert (H1 : (alter f i1 (ET.children elem ++ l1) ++ l2) !! i
               = Some child1).
  { rewrite lookup_app_l by (rewrite length_alter, length_app; lia).
    rewrite list_lookup_alter. unfold child1. case_decide as Hi1.
    - subst i1. by rewrite Hin1.
    - done. }
  assert (Htag1 : ET.tag child1 = ET.tag child).
  { unfold child1. by case_decide. }
  set (child2 := if decide (i2 = i) then g child1 else child1).
  assert (H2 : alter g i2 (alter f i1 (ET.children elem ++ l1) ++ l2) !! i
               = Some child2).
  { rewrite list_lookup_alter. unfold child2. case_decide as Hi2.
    - subst i2. by rewrite H1.
    - done. }
  assert (Htag2 : ET.tag child2 = ET.tag child).
  { unfold child2. case_decide; [by rewrite Hg|done]. }
  exists (h child2). split; [by rewrite Hout, list_lookup_fmap, H2|].
  split; [by rewrite Hh|]. intros Hpk Hrel Hicon.
  assert (Hne1 : i1 ≠ i).
  { intros ->. rewrite Hin1 in Hx1. injection Hx1 as <-. done. }
  assert (Hne2 : i2 ≠ i).
  { intros ->. rewrite H1 in Hx2. injection Hx2 as <-.
    rewrite Htag1 in Ht2. done. }
  unfold h. rewrite decide_False by (by rewrite Htag2).
  unfold child2. rewrite decide_False by done.
  unfold child1. by rewrite decide_False.
Qed.

Lemma transform_keeps_other_children_witness :
  let summary :=
    Elem "summary" ∅ (Some ("Find" +:+ String "013" "places")) None [] in
  let raw :=
    Elem "component" {[ "type" := "desktop" ]} None None
      [Elem "id" ∅ (Some "org.gnome.Maps") None [];
       Elem "pkgname" ∅ (Some "maps-flatpak") None [];
       summary] in
  let elem :=
    Elem "component" {[ "type" := "desktop" ]} None None
      [Elem "id" ∅ (Some "org.gnome.Maps") None [];
       Elem "pkgname" ∅ (Some "maps-flatpak") None [];
       ET.parsed summary] in
  let component := Sample.component "org.gnome.Maps" "Maps" None raw in
  let mapping := Mapping.mk "org.gnome.Maps" "gnome-maps" "46.0" 1%Qc in
  ET.fromstring raw = Ok elem
  /\ ET.parsed summary
     = Elem "summary" ∅ (Some ("Find" +:+ String "010" "places")) None []
  /\ exists out,
       transform_component_xml component mapping = Ok out
       /\ ET.children out !! 2 = Some (ET.parsed summary)
       /\ length (ET.children out) = 4.
Proof.
  intros summary raw elem component mapping.
  assert (Hparse : ET.fromstring raw = Ok elem) by reflexivity.
  split; [exact Hparse|]. split; [reflexivity|].
  destruct (transform_keeps_other_children component mapping elem Hparse)
    as (_ & _ & _ & _ & out & Hrun & _ & _ & _ & _ & _ & Hkeep).
  exists out. split; [exact Hrun|].
  destruct (Hkeep 2 (ET.parsed summary) eq_refl)
    as (child' & Hchild & _ & Hsame).
  split.
  - rewrite Hchild. f_equal. apply Hsame; discriminate.
  - vm_compute in Hrun. injection Hrun as <-. reflexivity.
Defined.

(** X12. In the fragment the transformer returns no [icon] child is of
    type "remote", and every [icon] child of type "cached" has width and
    height 128 and the local file name of the component as its text. *)
Theorem transformed_icons_are_local component mapping out :
  transform_component_xml component mapping = Ok out ->
  Forall
    (fun icon =>
       ET.get icon "type" ≠ Some "remote"
       /\ (ET.get icon "type" = Some "cached" ->
           ET.get icon "width" = Some "128"
           /\ ET.get icon "height" = Some "128"
           /\ ET.text icon
              = Some (FlathubComponent.id component
                      +:+ match FlathubComponent.icon_url component with
                          | Some u =>
                              if Py.endswith u ".svg" then ".svg" else ".png"
                          | None => ".png"
                          end)))
    (ET.findall out "icon").
Proof.
  intros Hrun. destruct (transform_parses _ _ _ Hrun) as [elem Hparse].
  rewrite (transformed_icons _ _ _ _ Hparse Hrun).
  apply Forall_fmap, Forall_forall. intros icon _.
  rewrite <- icon_ext_value. apply rewritten_icon_shape.
Qed.

Lemma transformed_icons_are_local_witness :
  let raw :=
    Elem "component" {[ "type" := "desktop" ]} None None
      [Elem "icon" {[ "type" := "cached"; "width" := "64" ]}
            (Some "org.gimp.GIMP.png") None [];
       Elem "icon" {[ "type" := "remote" ]}
            (Some "https://example.org/gimp.png") None []] in
  let component :=
    Sample.component "org.gimp.GIMP" "GIMP"
      (Some "https://dl.flathub.org/repo/appstream/x86_64/icons/128x128/org.gimp.GIMP.png")
      raw in
  let mapping := Mapping.mk "org.gimp.GIMP" "gimp" "2.10" 1%Qc in
  exists out,
    transform_component_xml component mapping = Ok out
    /\ Forall (fun icon => ET.get icon "type" ≠ Some "remote")
         (ET.findall out "icon")
    /\ length (ET.findall out "icon") = 2.
Proof.
  intros raw component mapping.
  destruct (transform_component_xml component mapping) as [out|e] eqn:Hrun;
    [|vm_compute in Hrun; discriminate Hrun].
  exists out. split; [reflexivity|]. split.
  - eapply Forall_impl;
      [exact (transformed_icons_are_local component mapping out Hrun)|].
    intros icon [H _]. exact H.
  - vm_compute in Hrun. injection Hrun as <-. reflexivity.
Defined.


(** ** The icon download *)








(** An identity that holds a "/" is stored beneath a directory of its
    own, and one that starts with a "/" leaves the output directory, while
    the transformer writes the identity as it is. *)
Example download_icon_separator :
  download_icon "https://example.org/a.png" (Path.mk "" ["out"])
                "org/example" "128x128" (Ok ()) (Ok false) true
  = Ok (Some (Path.mk "" ["out"; "icons"; "128x128"; "org"; "example.png"]))
  /\ download_icon "https://example.org/a.png" (Path.mk "" ["out"])
                   "/tmp/example" "128x128" (Ok ()) (Ok false) true
     = Ok (Some (Path.mk "/" ["tmp"; "example.png"])).
Proof. split; vm_compute; reflexivity. Qed.

(** ** The emitter: any list of correspondences *)

Lemma catalog_root ms comps root :
  ET.tag (foldl (catalog_body comps) root ms) = ET.tag root
  /\ ET.attrib (foldl (catalog_body comps) root ms) = ET.attrib root
  /\ ET.text (foldl (catalog_body comps) root ms) = ET.text root.
Proof.
  revert root. induction ms as [|m ms IH]; intros root; [done|].
  cbn [foldl]. destruct (IH (catalog_body comps root m)) as (-> & -> & ->).
  unfold catalog_body. destruct (odict_get comps _); [|done].
  by destruct (transform_component_xml _ m ≫= _).
Qed.

Lemma catalog_entry_Some comps m e :
  catalog_entry comps m = Some e ->
  exists c out,
    odict_get comps (Mapping.flathub_id m) = Some c
    /\ transform_component_xml c m = Ok out
    /\ ET.fromstring_written out = Ok e.
Proof.
  unfold catalog_entry. destruct (odict_get comps _) as [c|]; [|done].
  simpl. destruct (transform_component_xml c m) as [out|err] eqn:Hrun;
    simpl; [|done].
  destruct (ET.fromstring_written out) as [elem|] eqn:Hparse; [|done].
  intros [= <-]. by exists c, out.
Qed.

Lemma indent_children_root elem level :
  ET.tag (ET.indent_children elem level) = ET.tag elem
  /\ ET.attrib (ET.indent_children elem level) = ET.attrib elem
  /\ ET.tail (ET.indent_children elem level) = ET.tail elem
  /\ ET.text (ET.indent_children elem level)
     = (if ET.blank_text (ET.text elem)
        then Some (ET.indentation (S level)) else ET.text elem)
  /\ ET.children (ET.indent_children elem level)
     = indent_list level (ET.children elem).
Proof.
  destruct elem as [t a x tl cs]. simpl. repeat (split; [done|]).
  induction cs as [|c r IH]; [done|]. cbn [indent_list]. f_equal; [|done].
  unfold indent_child. by destruct r.
Qed.

Lemma indent_root tree :
  ET.tag (ET.indent tree) = ET.tag tree
  /\ ET.attrib (ET.indent tree) = ET.attrib tree
  /\ ET.children (ET.indent tree) = indent_list 0 (ET.children tree).
Proof.
  unfold ET.indent. destruct (ET.children tree) eqn:Hc; [by rewrite Hc|].
  destruct (indent_children_root tree 0) as (-> & -> & _ & _ & ->).
  by rewrite Hc.
Qed.

Lemma indent_child_root level is_last child :
  ET.tag (indent_child level is_last child) = ET.tag child
  /\ ET.attrib (indent_child level is_last child) = ET.attrib child
  /\ length (ET.children (indent_child level is_last child))
     = length (ET.children child).
Proof.
  unfold indent_child, ET.set_tail. simpl.
  destruct (ET.children child) eqn:Hc; [by rewrite Hc|].
  destruct (indent_children_root child (S level)) as (-> & -> & _ & _ & ->).
  rewrite Hc. repeat split. clear. generalize (e :: l). intros cs.
  induction cs as [|c r IH]; [done|]. simpl. by rewrite IH.
Qed.

Lemma elem_of_indent_list level l e :
  e ∈ indent_list level l ->
  exists (is_last : bool) child,
    child ∈ l /\ e = indent_child level is_last child.
Proof.
  induction l as [|c r IH]; simpl; [by intros ?%elem_of_nil|].
  intros [->|Hin]%elem_of_cons.
  - eexists _, c. split; [apply list_elem_of_here|done].
  - destruct (IH Hin) as (b & child & Hchild & ->).
    exists b, child. split; [by apply list_elem_of_further|done].
Qed.

Lemma length_indent_list level l : length (indent_list level l) = length l.
Proof. induction l as [|c r IH]; [done|]. simpl. by rewrite IH. Qed.

(** X15. Whatever correspondences and components it is given, the emitter
    writes a [components] root with version "0.16" and origin
    "nixpkgs-flathub" and nothing else, with at most one child per
    correspondence.  Every child comes from a correspondence whose source
    identity is a key of the components: it is the fragment the transformer
    returns for it, read back and indented, and so has the tag and the
    attributes of that fragment and as many children.  A correspondence
    without a component, or whose fragment raises in the transformer or
    when it is read back, leaves no trace. *)
Theorem catalog_holds_transformed_fragments
    (ms : list Mapping.t) (comps : odict FlathubComponent.t) :
  let catalog := generate_appstream_catalog ms comps in
  ET.tag catalog = "components"
  /\ ET.attrib catalog
     = <["origin" := "nixpkgs-flathub"]> (<["version" := "0.16"]> ∅)
  /\ length (ET.children catalog) <= length ms
  /\ Forall
       (fun e => exists m c out elem (is_last : bool),
            m ∈ ms
            /\ odict_get comps (Mapping.flathub_id m) = Some c
            /\ transform_component_xml c m = Ok out
            /\ ET.fromstring_written out = Ok elem
            /\ e = indent_child 0 is_last elem
            /\ ET.tag e = ET.tag out /\ ET.attrib e = ET.attrib out
            /\ length (ET.children e) = length (ET.children out))
       (ET.children catalog).
Proof.
  cbv zeta. unfold generate_appstream_catalog.
  destruct (indent_root
              (foldl (catalog_body comps)
                 (ET.set (ET.set (Elem "components" ∅ None None []) "version"
                                 "0.16") "origin" "nixpkgs-flathub") ms))
    as (-> & -> & ->).
  split; [by rewrite (proj1 (catalog_root _ _ _))|].
  split; [by rewrite (proj1 (proj2 (catalog_root _ _ _)))|].
  rewrite catalog_children. simpl. rewrite length_indent_list.
  split; [apply length_omap_le|].
  apply Forall_forall. intros e (b & elem & Hin & ->)%elem_of_indent_list.
  apply list_elem_of_omap in Hin as (m & Hm & He).
  destruct (catalog_entry_Some _ _ _ He) as (c & out & Hc & Hrun & Hparse).
  exists m, c, out, elem, b. repeat (split; [done|]).
  destruct (indent_child_root 0 b elem) as (-> & -> & ->).
  unfold ET.fromstring_written in Hparse.
  destruct (ET.xml_chars out); [|done].
  apply fromstring_root in Hparse as (-> & -> & _ & ->).
  by rewrite length_fmap.
Qed.

(** A catalog of one component, as it is written: the line end of the
    summary is read as XML prescribes and the tree is indented.  A version
    that holds a character XML forbids keeps the component out. *)
Example catalog_written :
  let raw :=
    Elem "component" {[ "type" := "desktop" ]} None None
      [Elem "summary" ∅ (Some ("Maps" +:+ String "013" "for GNOME")) None
            []] in
  let component := Sample.component "org.gnome.Maps" "Maps" None raw in
  let mapping v := Mapping.mk "org.gnome.Maps" "gnome-maps" v 1%Qc in
  let comps := [("org.gnome.Maps", component)] in
  let nl := String "010" "" in
  generate_appstream_catalog [mapping "46.0"] comps
  = Elem "components" {[ "version" := "0.16"; "origin" := "nixpkgs-flathub" ]}
      (Some (nl +:+ "  ")) None
      [Elem "component" {[ "type" := "desktop" ]} (Some (nl +:+ "    "))
            (Some nl)
         [Elem "summary" ∅ (Some ("Maps" +:+ nl +:+ "for GNOME"))
               (Some (nl +:+ "    ")) [];
          Elem "pkgname" ∅ (Some "gnome-maps") (Some (nl +:+ "    ")) [];
          Elem "releases" ∅ (Some (nl +:+ "      ")) (Some (nl +:+ "  "))
            [Elem "release" {[ "version" := "46.0" ]} None
                  (Some (nl +:+ "    ")) []]]]
  /\ ET.children
       (generate_appstream_catalog [mapping ("46.0" +:+ String "001" "")]
          comps)
     = [].
Proof. split; vm_compute; reflexivity. Qed.

(** ** The report: the sample *)

(** X16. When the sample of the report holds fewer than 20 entries,
    every one of the first 100 components either has a correspondence or
    is listed in the sample. *)
Theorem unmapped_sample_complete
    (ms : list Mapping.t) (comps : odict FlathubComponent.t) :
  length (unmapped_popular ms comps) < 20 ->
  Forall
    (fun kv =>
       Exists (fun m => Mapping.flathub_id m = kv.1) ms
       \/ (FlathubComponent.id kv.2, FlathubComponent.name kv.2)
          ∈ unmapped_popular ms comps)
    (take 100 comps).
Proof.
  unfold unmapped_popular. intros Hlen.
  rewrite take_ge.
  2:{ rewrite length_take in Hlen. lia. }
  apply Forall_forall. intros [k c] Hin. simpl.
  destruct (decide (Exists (fun m => Mapping.flathub_id m = k) ms))
    as [Hex|Hnex]; [by left|]. right.
  apply list_elem_of_fmap. exists (k, c). split; [done|].
  by apply list_elem_of_filter.
Qed.

Lemma unmapped_sample_complete_witness :
  let comps := [("org.gnome.Maps", Sample.bare "org.gnome.Maps");
                ("com.example.Unknown", Sample.bare "com.example.Unknown")] in
  let ms := [Mapping.mk "org.gnome.Maps" "gnome-maps" "46.0" 1%Qc] in
  length (unmapped_popular ms comps) < 20
  /\ Forall
       (fun kv =>
          Exists (fun m => Mapping.flathub_id m = kv.1) ms
          \/ (FlathubComponent.id kv.2, FlathubComponent.name kv.2)
             ∈ unmapped_popular ms comps)
       (take 100 comps).
Proof.
  intros comps ms.
  assert (Hlen : length (unmapped_popular ms comps) < 20)
    by (vm_compute; lia).
  split; [exact Hlen|]. exact (unmapped_sample_complete ms comps Hlen).
Defined.

(** ** The pipeline: seeding and the registry index *)

Lemma add_mapped_attrs_list_none l (pkgs : gmap string NixPackage.t) a :
  a ∉ l.*2 -> pkgs !! a = None ->
  foldl add_mapped_attr pkgs l !! a = None.
Proof.
  revert pkgs. induction l as [|[k attr] l IH]; intros pkgs Hnin Hp; [done|].
  rewrite fmap_cons, not_elem_of_cons in Hnin. destruct Hnin as [Hne Hnin].
  simpl in Hne. cbn [foldl]. apply IH; [done|]. unfold add_mapped_attr.
  destruct (contains pkgs attr); [done|]. by rewrite lookup_insert_ne.
Qed.

Lemma table_value_elem (tbl : gmap string string) a :
  a ∈ (map_to_list tbl).*2 <-> exists k, tbl !! k = Some a.
Proof.
  rewrite list_elem_of_fmap. split.
  - intros ([k a'] & -> & Hin). exists k. by apply elem_of_map_to_list.
  - intros [k Hk]. exists (k, a). split; [done|].
    by apply elem_of_map_to_list.
Qed.

Lemma add_mapped_attrs_lookup_inv tbl pkgs a p :
  add_mapped_attrs tbl pkgs !! a = Some p ->
  pkgs !! a = Some p
  \/ (pkgs !! a = None /\ (exists k, tbl !! k = Some a)
      /\ p = NixPackage.mk a "unknown" [] None).
Proof.
  intros Hp. destruct (pkgs !! a) as [p'|] eqn:Hlive.
  - left. unfold add_mapped_attrs in Hp.
    rewrite (add_mapped_attrs_list_keep _ _ _ _ Hlive) in Hp. done.
  - right. split; [done|].
    destruct (decide (a ∈ (map_to_list tbl).*2)) as [Hin|Hnin].
    + apply table_value_elem in Hin as [k Hk]. split; [by exists k|].
      rewrite (add_mapped_attrs_lookup _ _ _ _ Hk), Hlive in Hp. congruence.
    + unfold add_mapped_attrs in Hp.
      rewrite add_mapped_attrs_list_none in Hp by done. done.
Qed.

(** X17. Seeding the packages with the attrs of the curated table keeps
    every package that was there, adds a stub of version "unknown" for
    every attr of the table that was missing, and adds nothing else; doing
    it twice is doing it once. *)
Theorem add_mapped_attrs_exact tbl pkgs :
  (forall a,
      add_mapped_attrs tbl pkgs !! a
      = match pkgs !! a with
        | Some p => Some p
        | None =>
            if decide (a ∈ (map_to_list tbl).*2)
            then Some (NixPackage.mk a "unknown" [] None)
            else None
        end)
  /\ (forall a, a ∈ (map_to_list tbl).*2 <-> exists k, tbl !! k = Some a)
  /\ add_mapped_attrs tbl (add_mapped_attrs tbl pkgs)
     = add_mapped_attrs tbl pkgs.
Proof.
  assert (Hlookup : forall pkgs a,
    add_mapped_attrs tbl pkgs !! a
    = match pkgs !! a with
      | Some p => Some p
      | None =>
          if decide (a ∈ (map_to_list tbl).*2)
          then Some (NixPackage.mk a "unknown" [] None)
          else None
      end).
  { intros pkgs' a. unfold add_mapped_attrs.
    destruct (pkgs' !! a) as [p|] eqn:Hp.
    - by apply add_mapped_attrs_list_keep.
    - case_decide as Hin.
      + by apply add_mapped_attrs_list_stub.
      + by apply add_mapped_attrs_list_none. }
  split; [apply Hlookup|]. split; [apply table_value_elem|].
  apply map_eq. intros a. rewrite (Hlookup (add_mapped_attrs tbl pkgs)).
  rewrite (Hlookup pkgs). destruct (pkgs !! a); [done|]. by case_decide.
Qed.

Lemma main_value (no_nix_search mapping_only : bool) feed
    (scan : gmap string NixPackage.t) :
  exists report catalog,
    main no_nix_search mapping_only feed scan
    = Ok (Output.mk
            (omap (match_rule
                     (add_mapped_attrs build_desktop_id_mapping
                        (if no_nix_search then ∅ else scan))
                     build_desktop_id_mapping)
               (odict_keys (parse_flathub_appstream feed)))
            report catalog).
Proof.
  unfold main. rewrite create_mapping_unfold.
  change (Ok ?x ≫= ?f) with (f x). cbv beta.
  rewrite generate_mapping_report_value.
  change (Ok ?x ≫= ?f) with (f x). cbv beta. by eexists _, _.
Qed.

(** X18. Run without the package scan, [main] reports version "unknown"
    for every correspondence, and every attr it reports is a value of the
    curated table. *)
Theorem main_no_nix_search_versions (mapping_only : bool) feed scan :
  exists out,
    main true mapping_only feed scan = Ok out
    /\ Forall
         (fun m =>
            Mapping.nixpkgs_version m = "unknown"
            /\ exists k,
                 build_desktop_id_mapping !! k = Some (Mapping.nixpkgs_attr m))
         (Output.mappings out).
Proof.
  destruct (main_value true mapping_only feed scan) as (report & cat & ->).
  eexists. split; [done|]. simpl.
  apply Forall_forall. intros m (k & _ & Hm)%list_elem_of_omap.
  apply match_rule_package in Hm as (pkg & Hpkg & ->).
  apply add_mapped_attrs_lookup_inv in Hpkg as [Hlive|(_ & Hk & ->)].
  - by rewrite lookup_empty in Hlive.
  - done.
Qed.

Lemma for_each_invariant {A S} (body : S -> A -> res S) (P : S -> Prop)
    (l : list A) (s : S) :
  (forall s x, x ∈ l -> P s -> exists s', body s x = Ok s' /\ P s') ->
  P s -> exists s', for_each body s l = Ok s' /\ P s'.
Proof.
  revert s. induction l as [|x l IH]; intros s Hbody Hs; simpl; [eauto|].
  destruct (Hbody s x) as (s1 & -> & Hs1); [apply list_elem_of_here|done|].
  simpl. apply IH; [|done].
  intros s' y Hy. apply Hbody. by apply list_elem_of_further.
Qed.

(** One step of the scan raises exactly on an entry with at least three
    segments whose value is not an object. *)
Lemma scan_body_cases packages attr_path pkg_info :
  if bool_decide (3 <= length (Py.split "." attr_path))
  then exists attr,
         last (Py.split "." attr_path) = Some attr
         /\ ("."%char ∉ list_ascii_of_string attr)
         /\ match pkg_info with
            | InfoObject fields =>
                scan_body packages (attr_path, pkg_info)
                = Ok (<[attr := NixPackage.mk attr
                                  (default "unknown" (fields !! "version"))
                                  [] None]> packages)
            | InfoOther =>
                scan_body packages (attr_path, pkg_info) = Raise AttributeError
            end
  else scan_body packages (attr_path, pkg_info) = Ok packages.
Proof.
  unfold scan_body. destruct (bool_decide _); [|done].
  destruct (split_last_is_Some "." attr_path) as [attr Hattr].
  exists attr. split; [done|]. split.
  - apply (proj1 (Forall_forall _ _) (split_no_sep "." attr_path)).
    by apply last_Some_elem_of.
  - unfold last_item. rewrite Hattr. by destruct pkg_info.
Qed.


Lemma scan_loop_shape (l : odict PkgInfo) packages pkgs
    (P : string -> NixPackage.t -> Prop) :
  (forall attr_path fields attr,
     (attr_path, InfoObject fields) ∈ l ->
     3 <= length (Py.split "." attr_path) ->
     last (Py.split "." attr_path) = Some attr ->
     "."%char ∉ list_ascii_of_string attr ->
     P attr (NixPackage.mk attr (default "unknown" (fields !! "version"))
                           [] None)) ->
  map_Forall P packages ->
  for_each scan_body packages l = Ok pkgs ->
  map_Forall P pkgs.
Proof.
  revert packages. induction l as [|[attr_path pkg_info] l IH];
    intros packages HP Hs; cbn [for_each]; [by intros [= <-]|].
  pose proof (scan_body_cases packages attr_path pkg_info) as Hcase.
  assert (Hrest : forall attr_path fields attr,
     (attr_path, InfoObject fields) ∈ l ->
     3 <= length (Py.split "." attr_path) ->
     last (Py.split "." attr_path) = Some attr ->
     "."%char ∉ list_ascii_of_string attr ->
     P attr (NixPackage.mk attr (default "unknown" (fields !! "version"))
                           [] None)).
  { intros ap fs a Hin. apply HP. by apply list_elem_of_further. }
  destruct (bool_decide (3 <= length (Py.split "." attr_path))) eqn:Hlen.
  - apply bool_decide_eq_true in Hlen.
    destruct Hcase as (attr & Hattr & Hdot & Hbody).
    destruct pkg_info as [fields|]; rewrite Hbody; simpl; [|done].
    apply IH; [done|]. apply map_Forall_insert_2; [|done].
    apply (HP attr_path fields attr); [apply list_elem_of_here|done..].
  - rewrite Hcase. simpl. by apply IH.
Qed.

Lemma scan_packages_no_dot run pkgs a :
  scan_nixpkgs_desktop_files run = Ok pkgs ->
  is_Some (pkgs !! a) -> "."%char ∉ list_ascii_of_string a.
Proof.
  intros Hrun.
  assert (Hall : map_Forall
            (fun a (_ : NixPackage.t) => "."%char ∉ list_ascii_of_string a)
            pkgs).
  { unfold scan_nixpkgs_desktop_files in Hrun.
    destruct run as [|e|returncode stdout].
    - injection Hrun as <-. apply map_Forall_empty.
    - discriminate Hrun.
    - destruct (bool_decide (returncode ≠ 0%Z));
        [injection Hrun as <-; apply map_Forall_empty|].
      destruct stdout as [| |search_results].
      + injection Hrun as <-. apply map_Forall_empty.
      + discriminate Hrun.
      + eapply scan_loop_shape; [|apply map_Forall_empty|exact Hrun].
        by intros. }
  intros [p Hp]. by apply (Hall a p).
Qed.


(** X20. The package scan stores a package under the last segment of its
    attr path, so it never has a package under a dotted attr.  Hence, for a
    curated entry whose attr holds a ".", [main] run with the scan always
    matches the component through the stub and reports version
    "unknown", whatever the scan found. *)
Theorem main_dotted_attr_unknown
    (mapping_only : bool) feed run scan k attr :
  scan_nixpkgs_desktop_files run = Ok scan ->
  build_desktop_id_mapping !! k = Some attr ->
  "."%char ∈ list_ascii_of_string attr ->
  k ∈ odict_keys (parse_flathub_appstream feed) ->
  exists out,
    main false mapping_only feed scan = Ok out
    /\ mappings_for k (Output.mappings out)
       = [Mapping.mk k attr "unknown" 1%Qc].
Proof.
  intros Hscan Ht Hdot Hk.
  destruct (main_value false mapping_only feed scan) as (report & cat & ->).
  eexists. split; [done|]. simpl.
  rewrite mappings_for_present by (done || apply parse_flathub_appstream_wf).
  assert (Hnone : scan !! attr = None).
  { apply eq_None_not_Some. intros Hsome.
    by apply (scan_packages_no_dot _ _ _ Hscan Hsome). }
  erewrite match_rule_curated;
    [|done|by eapply add_mapped_attrs_lookup].
  by rewrite Hnone.
Qed.

Lemma main_dotted_attr_unknown_witness :
  let feed :=
    Elem "components" ∅ None None
      [Elem "component" {[ "type" := "desktop" ]} None None
         [Elem "id" ∅ (Some "org.kde.systemsettings.desktop") None []]] in
  let run :=
    Completed 0
      (JSONObject
         [("legacyPackages.x86_64-linux.plasma5Packages.systemsettings",
           InfoObject {[ "version" := "5.27.11" ]})]) in
  exists scan out,
    scan_nixpkgs_desktop_files run = Ok scan
    /\ scan !! "systemsettings"
       = Some (Sample.package "systemsettings" "5.27.11")
    /\ build_desktop_id_mapping !! "org.kde.systemsettings"
       = Some "plasma5Packages.systemsettings"
    /\ main false true feed scan = Ok out
    /\ mappings_for "org.kde.systemsettings" (Output.mappings out)
       = [Mapping.mk "org.kde.systemsettings" "plasma5Packages.systemsettings"
            "unknown" 1%Qc].
Proof.
  intros feed run.
  destruct (scan_nixpkgs_desktop_files run) as [scan|e] eqn:Hscan;
    [|vm_compute in Hscan; discriminate Hscan].
  assert (Ht : build_desktop_id_mapping !! "org.kde.systemsettings"
               = Some "plasma5Packages.systemsettings")
    by (vm_compute; reflexivity).
  assert (Hdot : "."%char
                 ∈ list_ascii_of_string "plasma5Packages.systemsettings")
    by (apply (bool_decide_unpack _); vm_compute; exact I).
  assert (Hk : "org.kde.systemsettings"
               ∈ odict_keys (parse_flathub_appstream feed))
    by (vm_compute; apply list_elem_of_here).
  destruct (main_dotted_attr_unknown true feed run scan _ _ Hscan Ht Hdot Hk)
    as (out & Hmain & Hfor).
  exists scan, out. split; [reflexivity|]. split.
  - vm_compute in Hscan. injection Hscan as <-. vm_compute. reflexivity.
  - split; [exact Ht|]. split; [exact Hmain|exact Hfor].
Defined.
